(** * joi-of-cql: CQL column types as joi validators

    A shallow embedding of [index.js] of godaddy/joi-of-cql and of the part of
    the hapi/joi v8 engine that [index.js] drives, followed by the properties
    of the specification that were checked against it.

    Layout:
    - [JS]      JavaScript values, objects as ordered property lists,
                truthiness, strict equality, [JSON.stringify];
    - [Regex]   the regular-expression literals that occur in [index.js];
    - [Joi]     schemas of the validation engine and its [validate];
    - [Cql]     the functions of [index.js] themselves;
    - the theorems, one per checked property. *)

From Stdlib Require Import Bool Ascii String List ZArith Lia DecimalString.
Import ListNotations.

Set Warnings "-register-all".

Local Open Scope list_scope.
Local Open Scope string_scope.

(* ================================================================== *)
(** ** JavaScript values *)
(* ================================================================== *)

Module JS.

(** Numbers.  Only integral finite doubles are represented, next to the two
    infinities and NaN; fractional doubles are outside the model. *)
Inductive number : Type :=
| NFin (z : Z)
| NInf (negative : bool)
| NNaN.

(** The functions that [index.js] stores inside annotations.  A function
    value is a name together with the values it closes over:
    [convertMap(handler)] is [VFun F_convertMap [handler]].  The properties
    below read which function an annotation holds and never call it. *)
Inductive fname : Type :=
| F_JSON_stringify
| F_JSON_parse
| F_convertMap
| F_convertArray.

(** A string is the sequence of its UTF-8 bytes; a plain object is the
    ordered list of its own properties. *)
Inductive value : Type :=
| VUndefined
| VNull
| VBool (b : bool)
| VNum (n : number)
| VStr (s : string)
| VArr (items : list value)
| VObj (props : list (string * value))
| VFun (f : fname) (captured : list value).

Definition obj : Type := list (string * value).

(** Errors that JavaScript throws. *)
Inductive exn : Type :=
| TypeError (msg : string).

(** A computation that returns or throws. *)
Inductive outcome (A : Type) : Type :=
| Ok (a : A)
| Throw (e : exn).
Arguments Ok {A} a.
Arguments Throw {A} e.

Definition bind {A B : Type} (m : outcome A) (k : A -> outcome B) : outcome B :=
match m with
| Ok a => k a
| Throw e => Throw e
end.

Notation "x <- m ;; k" := (bind m (fun x => k))
  (at level 61, m at next level, right associativity).

(** *** Objects *)

(** [k in o] *)
Fixpoint has_key (k : string) (o : obj) : bool :=
match o with
| [] => false
| (k', _) :: rest => if String.eqb k k' then true else has_key k rest
end.

(** The own property [k] of [o], if there is one. *)
Fixpoint lookup (k : string) (o : obj) : option value :=
match o with
| [] => None
| (k', v) :: rest => if String.eqb k k' then Some v else lookup k rest
end.

(** [o[k]]: reading a missing property gives [undefined]. *)
Definition get (k : string) (o : obj) : value :=
match lookup k o with
| Some v => v
| None => VUndefined
end.

(** [o[k] = v]: an existing property keeps its place, a new one goes last.
    (That is the order in which JavaScript lists the names of an object,
    but for names that are array indices, which it lists first and in
    ascending order.) *)
Fixpoint set (k : string) (v : value) (o : obj) : obj :=
match o with
| [] => [(k, v)]
| (k', v') :: rest =>
    if String.eqb k k' then (k', v) :: rest else (k', v') :: set k v rest
end.

(** [delete o[k]] *)
Fixpoint delete (k : string) (o : obj) : obj :=
match o with
| [] => []
| (k', v') :: rest =>
    if String.eqb k k' then delete k rest else (k', v') :: delete k rest
end.

(** [Object.keys(o)] *)
Definition keys (o : obj) : list string := map fst o.

(** [v.k] for an arbitrary value: only objects have own data properties
    here; reading a property of [undefined] or [null] throws. *)
Definition prop (v : value) (k : string) : outcome value :=
match v with
| VUndefined => Throw (TypeError "cannot read property of undefined")
| VNull => Throw (TypeError "cannot read property of null")
| VObj o => Ok (get k o)
| _ => Ok VUndefined
end.

(** *** Truthiness and the short-circuit operators *)

Definition truthy (v : value) : bool :=
match v with
| VUndefined => false
| VNull => false
| VBool b => b
| VNum (NFin z) => negb (Z.eqb z 0)
| VNum (NInf _) => true
| VNum NNaN => false
| VStr s => negb (String.eqb s "")
| VArr _ => true
| VObj _ => true
| VFun _ _ => true
end.

(** [a || b] *)
Definition or_else (a b : value) : value := if truthy a then a else b.

(** [Array.isArray(v)] *)
Definition isArray (v : value) : bool :=
match v with
| VArr _ => true
| _ => false
end.

(** *** Equality *)

Definition number_eqb (a b : number) : bool :=
match a, b with
| NFin x, NFin y => Z.eqb x y
| NInf s, NInf t => Bool.eqb s t
| _, _ => false
end.

Definition fname_eqb (a b : fname) : bool :=
match a, b with
| F_JSON_stringify, F_JSON_stringify => true
| F_JSON_parse, F_JSON_parse => true
| F_convertMap, F_convertMap => true
| F_convertArray, F_convertArray => true
| _, _ => false
end.

(** Structural equality of values ([NaN] differs from itself): [===] on
    primitives, and the same contents in the same order on arrays, objects
    and function values. *)
Fixpoint value_eqb (a b : value) {struct a} : bool :=
match a, b with
| VUndefined, VUndefined => true
| VNull, VNull => true
| VBool x, VBool y => Bool.eqb x y
| VNum x, VNum y => number_eqb x y
| VStr x, VStr y => String.eqb x y
| VArr xs, VArr ys =>
    (fix all2 (l : list value) (r : list value) {struct l} : bool :=
       match l, r with
       | [], [] => true
       | x :: l', y :: r' => value_eqb x y && all2 l' r'
       | _, _ => false
       end) xs ys
| VObj xs, VObj ys =>
    (fix all2 (l : list (string * value)) (r : list (string * value)) {struct l} : bool :=
       match l, r with
       | [], [] => true
       | (k, x) :: l', (k', y) :: r' => String.eqb k k' && value_eqb x y && all2 l' r'
       | _, _ => false
       end) xs ys
| VFun f xs, VFun g ys =>
    fname_eqb f g &&
    (fix all2 (l : list value) (r : list value) {struct l} : bool :=
       match l, r with
       | [], [] => true
       | x :: l', y :: r' => value_eqb x y && all2 l' r'
       | _, _ => false
       end) xs ys
| _, _ => false
end.

(** [a === b] on primitives; two object references are never identical
    unless they are the same object, which the callers below never rely on. *)
Definition strict_eq (a b : value) : bool :=
match a, b with
| VUndefined, VUndefined => true
| VNull, VNull => true
| VBool x, VBool y => Bool.eqb x y
| VNum x, VNum y => number_eqb x y
| VStr x, VStr y => String.eqb x y
| _, _ => false
end.

(** [list.indexOf(v) > -1] *)
Definition includes (v : value) (l : list value) : bool :=
existsb (strict_eq v) l.

(** *** JSON.stringify *)

Definition dquote : ascii := ascii_of_nat 34.
Definition backslash : ascii := ascii_of_nat 92.

Definition hex_digit (n : nat) : ascii :=
if Nat.ltb n 10 then ascii_of_nat (48 + n) else ascii_of_nat (87 + n).

(** The escape of one character inside a JSON string literal. *)
Definition escape_char (c : ascii) : string :=
let n := nat_of_ascii c in
if Nat.eqb n 34 then String backslash (String dquote "")
else if Nat.eqb n 92 then String backslash (String backslash "")
else if Nat.eqb n 8 then String backslash "b"
else if Nat.eqb n 9 then String backslash "t"
else if Nat.eqb n 10 then String backslash "n"
else if Nat.eqb n 12 then String backslash "f"
else if Nat.eqb n 13 then String backslash "r"
else if Nat.ltb n 32 then
  String backslash ("u00" ++ String (hex_digit (n / 16)) (String (hex_digit (n mod 16)) ""))
else String c "".

Fixpoint escape (s : string) : string :=
match s with
| EmptyString => ""
| String c rest => escape_char c ++ escape rest
end.

Definition quote (s : string) : string :=
String dquote (escape s ++ String dquote "").

Fixpoint join (sep : string) (l : list string) : string :=
match l with
| [] => ""
| [x] => x
| x :: rest => x ++ sep ++ join sep rest
end.

(** The decimal text of an integer, which is how JavaScript writes an
    integral double up to 2^53. *)
Definition string_of_Z (z : Z) : string :=
NilZero.string_of_int (Z.to_int z).

(** The text [JSON.stringify] produces, [None] where it returns
    [undefined].  Inside an array a value without a text is written [null];
    inside an object its property is left out. *)
Fixpoint stringify_text (v : value) : option string :=
match v with
| VUndefined => None
| VNull => Some "null"
| VBool true => Some "true"
| VBool false => Some "false"
| VNum (NFin z) => Some (string_of_Z z)
| VNum _ => Some "null"
| VStr s => Some (quote s)
| VArr items =>
    Some ("[" ++ join ","
            (map (fun x => match stringify_text x with
                           | Some t => t
                           | None => "null"
                           end) items) ++ "]")
| VObj props =>
    Some ("{" ++ join ","
            (flat_map (fun p => match stringify_text (snd p) with
                                | Some t => [quote (fst p) ++ ":" ++ t]
                                | None => []
                                end) props) ++ "}")
| VFun _ _ => None
end.

Definition JSON_stringify (v : value) : value :=
match stringify_text v with
| Some t => VStr t
| None => VUndefined
end.

End JS.

Import JS.

(* ================================================================== *)
(** ** The regular expressions of index.js *)
(* ================================================================== *)

Module Regex.

(** The literals that occur in the modelled builders, and the expression
    the engine makes of the first one. *)
Inductive regex : Type :=
| Re_int64_m   (* /^\-?\d{1,19}$/m  in int64 *)
| Re_int64     (* /^\-?\d{1,19}$/   the same source without the flag *)
| Re_map_key   (* /[\-\w]+/         in types.cql.map *)
| Re_index.    (* /^\d+$/           in types.cql.list *)

(** [new RegExp(re.source, re.ignoreCase ? 'i' : undefined)]: the source
    is kept, and of the flags only [i], which no literal here has. *)
Definition recompile (re : regex) : regex :=
match re with
| Re_int64_m => Re_int64
| _ => re
end.

(** [\d] *)
Definition is_digit (c : ascii) : bool :=
let n := nat_of_ascii c in Nat.leb 48 n && Nat.leb n 57.

(** [\w] *)
Definition is_word (c : ascii) : bool :=
let n := nat_of_ascii c in
(Nat.leb 48 n && Nat.leb n 57) || (Nat.leb 65 n && Nat.leb n 90)
|| (Nat.leb 97 n && Nat.leb n 122) || Nat.eqb n 95.

Definition is_minus (c : ascii) : bool := Nat.eqb (nat_of_ascii c) 45.

Fixpoint all_digits (s : string) : bool :=
match s with
| EmptyString => true
| String c rest => is_digit c && all_digits rest
end.

Fixpoint exists_char (p : ascii -> bool) (s : string) : bool :=
match s with
| EmptyString => false
| String c rest => p c || exists_char p rest
end.

(** The lines of a string, as the [m] flag delimits them: a line ends at
    LF, CR, U+2028 or U+2029 (the last two are the bytes E2 80 A8 and
    E2 80 A9). *)
Definition push_char (c : ascii) (ls : list string) : list string :=
match ls with
| [] => [String c ""]
| l :: rest => String c l :: rest
end.

Fixpoint lines (s : string) : list string :=
match s with
| EmptyString => [""]
| String c rest =>
    let n := nat_of_ascii c in
    if Nat.eqb n 10 || Nat.eqb n 13 then "" :: lines rest
    else
      match rest with
      | String c1 (String c2 rest') =>
          if Nat.eqb n 226 && Nat.eqb (nat_of_ascii c1) 128
             && (Nat.eqb (nat_of_ascii c2) 168 || Nat.eqb (nat_of_ascii c2) 169)
          then "" :: lines rest'
          else push_char c (lines rest)
      | _ => push_char c (lines rest)
      end
end.

(** [-?\d{1,19}] against a whole line, or a whole string. *)
Definition int64_line (l : string) : bool :=
let digits := match l with
              | String c rest => if is_minus c then rest else l
              | EmptyString => l
              end in
all_digits digits && Nat.leb 1 (String.length digits) && Nat.leb (String.length digits) 19.

(** [re.test(s)] *)
Definition test (re : regex) (s : string) : bool :=
match re with
| Re_int64_m => existsb int64_line (lines s)
| Re_int64 => int64_line s
| Re_map_key => exists_char (fun c => is_minus c || is_word c) s
| Re_index => all_digits s && Nat.leb 1 (String.length s)
end.

End Regex.
Import Regex.

(* ================================================================== *)
(** ** The validation engine (hapi/joi v8) *)
(* ================================================================== *)

(** The engine is not part of the repository.  What follows models the
    behaviour of the schema types and combinators that [index.js] calls,
    under the engine's default options ([abortEarly], optional presence,
    unknown keys refused). *)

Module Joi.

(** Everything a validation call takes from outside the code: the engine's
    reading of a numeral string ([parseFloat] guarded by [isFinite]; [NNaN]
    when the string is no finite number), [JSON.parse], the engine's GUID
    pattern, the values the next calls of [uuid.v1()] and [uuid.v4()]
    return, and the text of [new Date().toISOString()]. *)
Record world : Type := {
  parseNumber : string -> number;
  parseJSON : string -> option value;
  isGuid : string -> bool;
  uuid_v1 : string;
  uuid_v4 : string;
  now_iso : string
}.

(** The options of a validation call: [convert] (on by default) and the
    caller's [context] ([undefined] by default). *)
Record options : Type := {
  convert : bool;
  context : value
}.

Definition default_options : options := {| convert := true; context := VUndefined |}.

Inductive failure : Type :=
| ValidationError (code : string).

(** What [_validate] returns, [{ value, errors }]: [error] stands for its
    [errors], which is [null] when there is none, and of which the first
    is kept. *)
Record result : Type := {
  error : option failure;
  value_of : value
}.

Definition pass (v : value) : result := {| error := None; value_of := v |}.
Definition fail (code : string) (v : value) : result :=
{| error := Some (ValidationError code); value_of := v |}.

Definition no_error (r : result) : bool :=
match error r with
| None => true
| Some _ => false
end.

(** A default registered with [.default(fn)] where [fn.isJoi] is set: the
    engine calls it as [fn(parent, options)]; the functions of [index.js]
    ignore the first argument, which is dropped here. *)
Definition default_fn : Type := world -> options -> outcome value.

Inductive string_test : Type :=
| Regex (re : regex)
| Guid.

Inductive number_test : Type :=
| Integer
| Min (limit : Z)
| Max (limit : Z).

(** The part of a schema every type has.  [c_post] is what an own
    [_validate] property does to the result of the inherited [_validate];
    it is the identity on a schema nobody patched. *)
Record common : Type := {
  c_meta : list obj;
  c_valids : list value;
  c_invalids : list value;
  c_convert : option bool;
  c_default : option default_fn;
  c_post : result -> result
}.

Inductive kind (S : Type) : Type :=
| KAny
| KString (tests : list string_test)
| KNumber (tests : list number_test)
| KAlternatives (matches : list S)
| KArray (sparse : bool) (unique : bool) (inclusions : list S)
| KObject (children : option (list (string * S)))
          (patterns : list (regex * S))
          (or_peers : list (list string))
          (allowUnknown : option bool).
Arguments KAny {S}.
Arguments KString {S} tests.
Arguments KNumber {S} tests.
Arguments KAlternatives {S} matches.
Arguments KArray {S} sparse unique inclusions.
Arguments KObject {S} children patterns or_peers allowUnknown.

Inductive schema : Type :=
| Schema (c : common) (k : kind schema).

Definition common_of (s : schema) : common :=
match s with
| Schema c _ => c
end.

Definition kind_of (s : schema) : kind schema :=
match s with
| Schema _ k => k
end.

(** *** Constructors *)

Definition blank : common :=
{| c_meta := []; c_valids := []; c_invalids := []; c_convert := None;
   c_default := None; c_post := fun r => r |}.

(** [joi.any()] *)
Definition any : schema := Schema blank KAny.

(** [joi.string()]: the empty string is invalid until allowed. *)
Definition string_ : schema :=
Schema {| c_meta := []; c_valids := []; c_invalids := [VStr ""];
          c_convert := None; c_default := None; c_post := fun r => r |}
       (KString []).

(** [joi.number()]: the infinities are invalid. *)
Definition number_ : schema :=
Schema {| c_meta := []; c_valids := [];
          c_invalids := [VNum (NInf false); VNum (NInf true)];
          c_convert := None; c_default := None; c_post := fun r => r |}
       (KNumber []).

(** [joi.alternatives()] *)
Definition alternatives : schema := Schema blank (KAlternatives []).

(** [joi.array()] *)
Definition array : schema := Schema blank (KArray false false []).

(** [joi.object()] *)
Definition object_ : schema := Schema blank (KObject None [] [] None).

(** *** Combinators.  Each works on a copy, [clone], which does not carry
    an own [_validate] over. *)

Definition clone (s : schema) : schema :=
match s with
| Schema c k =>
    Schema {| c_meta := c_meta c; c_valids := c_valids c;
              c_invalids := c_invalids c; c_convert := c_convert c;
              c_default := c_default c; c_post := fun r => r |} k
end.

Definition with_common (f : common -> common) (s : schema) : schema :=
match clone s with
| Schema c k => Schema (f c) k
end.

Definition with_kind (f : kind schema -> kind schema) (s : schema) : schema :=
match clone s with
| Schema c k => Schema c (f k)
end.

(** [s.meta(m)] *)
Definition meta (m : obj) (s : schema) : schema :=
with_common (fun c =>
  {| c_meta := c_meta c ++ [m]; c_valids := c_valids c;
     c_invalids := c_invalids c; c_convert := c_convert c;
     c_default := c_default c; c_post := c_post c |})%list s.

Definition remove_value (v : value) (l : list value) : list value :=
filter (fun x => negb (strict_eq v x)) l.

(** [s.allow(v)] *)
Definition allow (v : value) (s : schema) : schema :=
with_common (fun c =>
  {| c_meta := c_meta c; c_valids := c_valids c ++ [v];
     c_invalids := remove_value v (c_invalids c); c_convert := c_convert c;
     c_default := c_default c; c_post := c_post c |})%list s.

(** [s.strict(isStrict)] *)
Definition strict (isStrict : bool) (s : schema) : schema :=
with_common (fun c =>
  {| c_meta := c_meta c; c_valids := c_valids c;
     c_invalids := c_invalids c; c_convert := Some (negb isStrict);
     c_default := c_default c; c_post := c_post c |}) s.

(** [s.default(fn)] *)
Definition default (fn : default_fn) (s : schema) : schema :=
with_common (fun c =>
  {| c_meta := c_meta c; c_valids := c_valids c;
     c_invalids := c_invalids c; c_convert := c_convert c;
     c_default := Some fn; c_post := c_post c |}) s.

(** [s.regex(re)], [s.guid()] on a string schema; [regex] stores the
    expression it rebuilds from the source of [re]. *)
Definition add_string_test (t : string_test) (s : schema) : schema :=
with_kind (fun k => match k with
                    | KString tests => KString (tests ++ [t])%list
                    | _ => k
                    end) s.

Definition regex_ (re : regex) (s : schema) : schema :=
add_string_test (Regex (recompile re)) s.
Definition guid (s : schema) : schema := add_string_test Guid s.

(** [s.integer()], [s.min(n)], [s.max(n)] on a number schema *)
Definition add_number_test (t : number_test) (s : schema) : schema :=
with_kind (fun k => match k with
                    | KNumber tests => KNumber (tests ++ [t])%list
                    | _ => k
                    end) s.

Definition integer (s : schema) : schema := add_number_test Integer s.
Definition min (limit : Z) (s : schema) : schema := add_number_test (Min limit) s.
Definition max (limit : Z) (s : schema) : schema := add_number_test (Max limit) s.

(** [s.try(a, b, ...)] on an alternatives schema *)
Definition try_ (alts : list schema) (s : schema) : schema :=
with_kind (fun k => match k with
                    | KAlternatives ms => KAlternatives (ms ++ alts)%list
                    | _ => k
                    end) s.

(** [s.sparse(enabled)], [s.unique()], [s.items(t)] on an array schema *)
Definition sparse (enabled : bool) (s : schema) : schema :=
with_kind (fun k => match k with
                    | KArray _ u incl => KArray enabled u incl
                    | _ => k
                    end) s.

Definition unique (s : schema) : schema :=
with_kind (fun k => match k with
                    | KArray sp _ incl => KArray sp true incl
                    | _ => k
                    end) s.

Definition items (t : schema) (s : schema) : schema :=
with_kind (fun k => match k with
                    | KArray sp u incl => KArray sp u (incl ++ [t])%list
                    | _ => k
                    end) s.

(** [s.keys(shape)], [s.pattern(re, t)], [s.or(peers)], [s.unknown(allow)]
    on an object schema.  [keys] with an empty shape leaves no child; else
    the children not named in the shape stay and the shape's follow. *)
Definition keys_ (shape : list (string * schema)) (s : schema) : schema :=
with_kind (fun k => match k with
                    | KObject cs ps ors au =>
                        match shape with
                        | [] => KObject (Some []) ps ors au
                        | _ =>
                            let old := match cs with Some l => l | None => [] end in
                            KObject (Some (filter (fun p => negb (existsb (String.eqb (fst p))
                                                                     (map fst shape))) old
                                           ++ shape)%list)
                                    ps ors au
                        end
                    | _ => k
                    end) s.

Definition pattern (re : regex) (t : schema) (s : schema) : schema :=
with_kind (fun k => match k with
                    | KObject cs ps ors au => KObject cs (ps ++ [(re, t)])%list ors au
                    | _ => k
                    end) s.

Definition or_ (peers : list string) (s : schema) : schema :=
with_kind (fun k => match k with
                    | KObject cs ps ors au => KObject cs ps (ors ++ [peers])%list au
                    | _ => k
                    end) s.

Definition unknown (allowed : bool) (s : schema) : schema :=
with_kind (fun k => match k with
                    | KObject cs ps ors _ => KObject cs ps ors (Some allowed)
                    | _ => k
                    end) s.

(** [joi.object(shape)]; without a shape it is [joi.object()]. *)
Definition object (shape : option (list (string * schema))) : schema :=
match shape with
| None => object_
| Some l => keys_ l object_
end.

(** [s.describe().meta]: present only when the chain is not empty. *)
Definition describe_meta (s : schema) : option (list obj) :=
match c_meta (common_of s) with
| [] => None
| ms => Some ms
end.

(** [s._inner.children] *)
Definition inner_children (s : schema) : option (list (string * schema)) :=
match kind_of s with
| KObject cs _ _ _ => cs
| _ => None
end.

(** *** Validation *)

Definition is_undefined (v : value) : bool :=
match v with
| VUndefined => true
| _ => false
end.

(** The engine's integer test, [Hoek.isInteger] of hoek 3:
    [parseFloat(value) === parseInt(value, 10)] on a number that is not
    NaN.  [parseInt] reads the decimal text of the number, which has an
    exponent from 10^21 on, so the test holds of an integral double exactly
    when its magnitude is below 10^21.  (This is the engine of the older
    fixture set, which lists the number 9223372036854775807 as passing.) *)
Definition isInteger (n : number) : bool :=
match n with
| NFin z => Z.ltb (Z.abs z) (10 ^ 21)
| _ => false
end.

(** [n >= limit] and [n <= limit] *)
Definition number_geb (n : number) (limit : Z) : bool :=
match n with
| NFin z => Z.leb limit z
| NInf negative => negb negative
| NNaN => false
end.

Definition number_leb (n : number) (limit : Z) : bool :=
match n with
| NFin z => Z.leb z limit
| NInf negative => negative
| NNaN => false
end.

Definition string_test_ok (w : world) (t : string_test) (s : string) : bool :=
match t with
| Regex re => test re s
| Guid => isGuid w s
end.

Definition number_test_ok (t : number_test) (n : number) : bool :=
match t with
| Integer => isInteger n
| Min limit => number_geb n limit
| Max limit => number_leb n limit
end.

(** The end of every validation: an undefined value takes the default. *)
Definition finalize (c : common) (w : world) (o : options) (r : result)
  : outcome result :=
match value_of r with
| VUndefined =>
    match c_default c with
    | Some fn => d <- fn w o ;; Ok {| error := error r; value_of := d |}
    | None => Ok r
    end
| _ => Ok r
end.

(** The items of an array: an undefined item is refused unless the array
    is sparse; otherwise the first inclusion that accepts the item gives
    its value; with inclusions and none accepting, the array is refused. *)
Definition check_items (rec : schema -> value -> outcome result)
  (sparse_ : bool) (inclusions : list schema) (l : list value)
  : outcome (option (list value)) :=
(fix each (l : list value) : outcome (option (list value)) :=
   match l with
   | [] => Ok (Some [])
   | item :: rest =>
       if negb sparse_ && is_undefined item then Ok None
       else
         found <- (fix first (incl : list schema) : outcome (option value) :=
                     match incl with
                     | [] => Ok None
                     | t :: more =>
                         r <- rec t item ;;
                         if no_error r then Ok (Some (value_of r)) else first more
                     end) inclusions ;;
         match found, inclusions with
         | None, _ :: _ => Ok None
         | None, [] => rest' <- each rest ;;
                       Ok (option_map (cons item) rest')
         | Some v, _ => rest' <- each rest ;;
                        Ok (option_map (cons v) rest')
         end
   end) l.

(** [Hoek.deepEqual(a, b)]: primitives by [===], with NaN equal to
    itself; arrays item by item; plain objects by the number of their keys
    and then key by key of the first, [b[key]] being read whether or not
    [b] has the key, so that the order of the keys does not matter. *)
Fixpoint deepEqual (a b : value) {struct a} : bool :=
match a, b with
| VUndefined, VUndefined => true
| VNull, VNull => true
| VBool x, VBool y => Bool.eqb x y
| VNum NNaN, VNum NNaN => true
| VNum x, VNum y => number_eqb x y
| VStr x, VStr y => String.eqb x y
| VArr xs, VArr ys =>
    (fix all2 (l : list value) (r : list value) {struct l} : bool :=
       match l, r with
       | [], [] => true
       | x :: l', y :: r' => deepEqual x y && all2 l' r'
       | _, _ => false
       end) xs ys
| VObj xs, VObj ys =>
    Nat.eqb (List.length xs) (List.length ys)
    && (fix each (l : list (string * value)) {struct l} : bool :=
          match l with
          | [] => true
          | (k, x) :: l' => deepEqual x (get k ys) && each l'
          end) xs
| VFun _ _, VFun _ _ => value_eqb a b
| _, _ => false
end.

(** [unique()]: no item is equal to an earlier one.  Strings, numbers and
    booleans are looked up by value, objects and arrays are compared with
    [Hoek.deepEqual]. *)
Fixpoint distinct (l : list value) : bool :=
match l with
| [] => true
| x :: rest => negb (existsb (deepEqual x) rest) && distinct rest
end.

(** The declared children of an object, in order: each validates the
    property of its name; a produced value is stored back. *)
Definition check_children (rec : schema -> value -> outcome result)
  (children : list (string * schema)) (target : obj)
  : outcome (option obj) :=
(fix each (cs : list (string * schema)) (target : obj) : outcome (option obj) :=
   match cs with
   | [] => Ok (Some target)
   | (key, t) :: rest =>
       let item := get key target in
       r <- rec t item ;;
       if no_error r then
         each rest
              (if is_undefined (value_of r)
               then (if is_undefined item then target else delete key target)
               else set key (value_of r) target)
       else Ok None
   end) children target.

(** One key that no child claimed, against every pattern: the result says
    whether some pattern matched the key, and gives the updated object. *)
Definition check_patterns (rec : schema -> value -> outcome result)
  (patterns : list (regex * schema)) (key : string) (target : obj)
  : outcome (option (bool * obj)) :=
let item := get key target in
(fix each (ps : list (regex * schema)) (matched : bool) (target : obj)
   : outcome (option (bool * obj)) :=
   match ps with
   | [] => Ok (Some (matched, target))
   | (re, t) :: rest =>
       if test re key then
         r <- rec t item ;;
         if no_error r then
           each rest true
                (if is_undefined (value_of r) then target
                 else set key (value_of r) target)
         else Ok None
       else each rest matched target
   end) patterns false target.

(** All keys that no child claimed: the result is the keys no pattern
    matched either, and the updated object. *)
Definition check_unprocessed (rec : schema -> value -> outcome result)
  (patterns : list (regex * schema)) (unprocessed : list string) (target : obj)
  : outcome (option (list string * obj)) :=
(fix each (ks : list string) (target : obj) : outcome (option (list string * obj)) :=
   match ks with
   | [] => Ok (Some ([], target))
   | key :: rest =>
       m <- check_patterns rec patterns key target ;;
       match m with
       | None => Ok None
       | Some (matched, target') =>
           n <- each rest target' ;;
           Ok (option_map (fun p => (if matched then fst p else key :: fst p, snd p)) n)
       end
   end) unprocessed target.

(** [or(peers)]: some peer is defined. *)
Definition or_ok (target : obj) (peers : list string) : bool :=
existsb (fun peer => negb (is_undefined (get peer target))) peers.

Definition is_nil {A : Type} (l : list A) : bool :=
match l with
| [] => true
| _ => false
end.

(** [s._validate(v, state, options)] *)
Fixpoint validate (w : world) (o : options) (s : schema) (v : value)
  {struct s} : outcome result :=
match s with
| Schema c k =>
    let o := match c_convert c with
             | Some b => {| convert := b; context := context o |}
             | None => o
             end in
    r <- (if is_undefined v then Ok (pass v)
          else if includes v (c_valids c) then Ok (pass v)
          else if includes v (c_invalids c) then Ok (fail "any.invalid" v)
          else
            match k with
            | KAny => Ok (pass v)
            | KString tests =>
                match v with
                | VStr str =>
                    if forallb (fun t => string_test_ok w t str) tests
                    then Ok (pass v)
                    else Ok (fail "string.test" v)
                | _ => Ok (fail "string.base" v)
                end
            | KNumber tests =>
                let v' := match v with
                          | VStr str => if convert o then VNum (parseNumber w str) else v
                          | _ => v
                          end in
                let n := match v' with
                         | VNum n => n
                         | _ => NNaN
                         end in
                match n with
                | NNaN => Ok (fail "number.base" v')
                | _ =>
                    if includes (VNum n) (c_valids c) then Ok (pass (VNum n))
                    else if includes (VNum n) (c_invalids c)
                    then Ok (fail "any.invalid" (VNum n))
                    else if forallb (fun t => number_test_ok t n) tests
                    then Ok (pass (VNum n))
                    else Ok (fail "number.test" (VNum n))
                end
            | KAlternatives matches =>
                (fix first (ms : list schema) : outcome result :=
                   match ms with
                   | [] => Ok (fail "alternatives.base" VUndefined)
                   | m :: rest =>
                       r <- validate w o m v ;;
                       if no_error r then Ok r else first rest
                   end) matches
            | KArray sparse_ unique_ inclusions =>
                let v' := match v with
                          | VStr str =>
                              if convert o then
                                match parseJSON w str with
                                | Some (VArr l) => VArr l
                                | _ => v
                                end
                              else v
                          | _ => v
                          end in
                match v' with
                | VArr l =>
                    checked <- (if is_nil inclusions && sparse_ then Ok (Some l)
                                else check_items (validate w o) sparse_ inclusions l) ;;
                    match checked with
                    | None => Ok (fail "array.items" v')
                    | Some l' =>
                        if unique_ && negb (distinct l')
                        then Ok (fail "array.unique" (VArr l'))
                        else Ok (pass (VArr l'))
                    end
                | _ => Ok (fail "array.base" v')
                end
            | KObject children patterns or_peers allowUnknown =>
                let v' := match v with
                          | VStr str =>
                              if convert o then
                                match parseJSON w str with
                                | Some parsed => parsed
                                | None => v
                                end
                              else v
                          | _ => v
                          end in
                match v' with
                | VObj target =>
                    match children, patterns, or_peers with
                    | None, [], [] => Ok (pass (VObj target))
                    | _, _, _ =>
                        let child_keys := match children with
                                          | Some l => map fst l
                                          | None => []
                                          end in
                        let unprocessed :=
                          filter (fun key => negb (existsb (String.eqb key) child_keys))
                                 (keys target) in
                        after_children <-
                          match children with
                          | Some l => check_children (validate w o) l target
                          | None => Ok (Some target)
                          end ;;
                        match after_children with
                        | None => Ok (fail "object.child" (VObj target))
                        | Some target1 =>
                            after_patterns <-
                              (if is_nil unprocessed || is_nil patterns
                               then Ok (Some (unprocessed, target1))
                               else check_unprocessed (validate w o) patterns
                                                      unprocessed target1) ;;
                            match after_patterns with
                            | None => Ok (fail "object.child" (VObj target1))
                            | Some (unknown_keys, target2) =>
                                if (match children with Some _ => true | None => false end
                                    || negb (is_nil patterns))
                                   && negb (is_nil unknown_keys)
                                   && negb (match allowUnknown with
                                            | Some b => b
                                            | None => false
                                            end)
                                then Ok (fail "object.allowUnknown" (VObj target2))
                                else if forallb (or_ok target2) or_peers
                                then Ok (pass (VObj target2))
                                else Ok (fail "object.missing" (VObj target2))
                            end
                        end
                    end
                | _ => Ok (fail "object.base" v)
                end
            end) ;;
    r' <- finalize c w o r ;;
    Ok (c_post c r')
end.

(** [joi.validate(value, schema, options)]: the caller's options over the
    defaults.  A plain object given as schema is compiled to
    [joi.object(shape)] by the caller through [object]. *)
Definition validate_with (w : world) (ctx : value) (s : schema) (v : value)
  : outcome result :=
validate w {| convert := true; context := ctx |} s v.

End Joi.

(* ================================================================== *)
(** ** index.js *)
(* ================================================================== *)

Module Cql.
Import Joi.

(** What a schema method hands back: a plain value from a getter, a derived
    schema from a setter. *)
Inductive returned : Type :=
| Value (v : value)
| Derived (s : schema).

(** [Function.prototype.call] run with receiver [this_]: the receiver is
    the function that gets called, its first argument becomes that
    function's receiver.  Without a callable receiver it throws. *)
Definition Function_prototype_call
  (this_ : option (value -> list value -> outcome value)) (args : list value)
  : outcome value :=
match this_ with
| Some f => f (hd VUndefined args) (tl args)
| None => Throw (TypeError "Function.prototype.call called on a value that is not a function")
end.

(** [var slice = Array.prototype.slice.call;]  Reading the property [call]
    gives [Function.prototype.call] alone, and the file is in strict mode,
    so the plain call [slice(arguments)] runs it with [this] undefined. *)
Definition slice (args : list value) : outcome value :=
Function_prototype_call None args.

(** [findMeta(any, key)]: the last annotation of the chain that has [key]. *)
Definition findMeta (any : schema) (key : option string) : option obj :=
let key := match key with
           | Some k => if String.eqb k "" then "cql" else k
           | None => "cql"
           end in
let meta := filter (fun m => has_key key m)
                   (match describe_meta any with
                    | Some ms => ms
                    | None => []
                    end) in
last (List.map Some meta) None.

(** An annotation, or [undefined], as a value. *)
Definition meta_value (m : option obj) : value :=
match m with
| Some o => VObj o
| None => VUndefined
end.

(** [findMetaValue(any, key)] *)
Definition findMetaValue (any : schema) (key : string) : value :=
get key (match findMeta any (Some key) with
         | Some m => m
         | None => []
         end).

(** [proto.lookupKeys] *)
Definition lookupKeys (this : schema) (arguments : list value) : outcome returned :=
match arguments with
| [] => Ok (Value (or_else (findMetaValue this "cqlLookupKeys") (VArr [])))
| names :: _ =>
    ks <- (if isArray names then Ok names else slice [VArr arguments]) ;;
    Ok (Derived (meta [("cqlLookupKeys", ks)] this))
end.

(** [proto.partitionKey] *)
Definition partitionKey (this : schema) (arguments : list value) : returned :=
match arguments with
| [] => Value (or_else (findMetaValue this "cqlPartitionKey") (VArr []))
| name :: _ => Derived (meta [("cqlPartitionKey", name)] this)
end.

(** [proto.clusteringKey] *)
Definition clusteringKey (this : schema) (arguments : list value) : returned :=
match arguments with
| [] => Value (or_else (findMetaValue this "cqlClusteringKey") (VArr []))
| name :: _ => Derived (meta [("cqlClusteringKey", name)] this)
end.

(** [proto.toCql], the method of object schemas *)
Definition proto_toCql (this : schema) : value :=
match inner_children this with
| None => meta_value (findMeta this None)
| Some children =>
    VObj (fold_left (fun memo child =>
                       set (fst child) (meta_value (findMeta (snd child) None)) memo)
                    children [])
end.

(** [joi.constructor.prototype.toCql], the method of every other schema *)
Definition any_toCql (this : schema) : value :=
meta_value (findMeta this None).

(** [s.toCql()]: object schemas have their own method. *)
Definition toCql (s : schema) : value :=
match kind_of s with
| KObject _ _ _ _ => proto_toCql s
| _ => any_toCql s
end.

(** [convertMap(handler)] and [convertArray(handler)] as values *)
Definition convertMap (handler : value) : value := VFun F_convertMap [handler].
Definition convertArray (handler : value) : value := VFun F_convertArray [handler].

(** [int64(name)] *)
Definition int64 (name : string) : schema :=
try_ [regex_ Re_int64_m string_; integer number_]
     (meta [("cql", VBool true); ("type", VStr name)] alternatives).

(** [result.error] where [result] is what [_validate] returned: the engine
    keeps the errors under [errors], so there is no property [error]. *)
Definition result_error (result : result) : value := VUndefined.

(** [convertToJsonOnValidate(any)]: the schema's own [_validate] becomes
    a wrapper around the one it had. *)
Definition convertToJsonOnValidate (any : schema) : schema :=
match any with
| Schema c k =>
    Schema {| c_meta := c_meta c; c_valids := c_valids c;
              c_invalids := c_invalids c; c_convert := c_convert c;
              c_default := c_default c;
              c_post := fun r =>
                let result := c_post c r in
                if negb (truthy (result_error result)) && truthy (value_of result)
                then {| error := error result;
                        value_of := JSON_stringify (value_of result) |}
                else result |} k
end.

(** [v.k] where [v] is neither [undefined] nor [null]. *)
Definition member (v : value) (k : string) : value :=
match v with
| VObj o => get k o
| _ => VUndefined
end.

(** [options && options.default] *)
Definition options_default (options : value) : value :=
if truthy options then member options "default" else options.

(** [defaultUuid(options, version)] *)
Definition defaultUuid (options : value) (version : string) : value :=
if truthy (options_default options) then
  if includes (member options "default") [VStr version; VStr "empty"]
  then member options "default"
  else VStr version
else VUndefined.

(** [uuid[name]()] for the generators [v1] and [v4] of the uuid module;
    a name that is no member cannot be called. *)
Definition uuid_module (w : world) (name : value) : outcome value :=
match name with
| VStr n =>
    if String.eqb n "v1" then Ok (VStr (uuid_v1 w))
    else if String.eqb n "v4" then Ok (VStr (uuid_v4 w))
    else Throw (TypeError "uuid[options.default] is not a function")
| _ => Throw (TypeError "uuid[options.default] is not a function")
end.

(** [config.context.operation] *)
Definition context_operation (config : options) : outcome value :=
prop (context config) "operation".

(** [defaults.date(validator, options)] *)
Definition defaults_date (validator : schema) (options : value) : schema :=
let when := member options "default" in
let fn : default_fn := fun w config =>
  operation <- context_operation config ;;
  if strict_eq when operation
     || (strict_eq when (VStr "update")
         && includes operation [VStr "create"; VStr "update"])
  then Ok (VStr (now_iso w))
  else Ok VUndefined in
default fn validator.

(** [defaults.uuid(validator, options)] *)
Definition defaults_uuid (validator : schema) (options : value) : schema :=
let fn : default_fn := fun w config =>
  operation <- context_operation config ;;
  if strict_eq operation (VStr "create") then
    if strict_eq (member options "default") (VStr "empty")
    then Ok (VStr "00000000-0000-0000-0000-000000000000")
    else uuid_module w (member options "default")
  else Ok VUndefined in
default fn validator.

(** The two members of [defaults]. *)
Inductive family : Type :=
| Fdate
| Fuuid.

Definition defaults (type : family) : schema -> value -> schema :=
match type with
| Fdate => defaults_date
| Fuuid => defaults_uuid
end.

(** [defaultify(type, validator, options)] *)
Definition defaultify (type : family) (validator : schema) (options : value) : schema :=
if truthy (options_default options) then defaults type validator options else validator.

(** The builders of [types.cql] that the properties below are about. *)

Definition text : schema :=
meta [("cql", VBool true); ("type", VStr "text")] (strict true (allow (VStr "") string_)).

Definition ascii : schema :=
meta [("cql", VBool true); ("type", VStr "ascii")] (strict true (allow (VStr "") string_)).

Definition varchar : schema :=
meta [("cql", VBool true); ("type", VStr "varchar")] (allow (VStr "") string_).

Definition bigint : schema := int64 "bigint".

Definition counter : schema := int64 "counter".

Definition int : schema :=
max 2147483647
    (min (-2147483648)
         (meta [("cql", VBool true); ("type", VStr "int")] (integer number_))).

Definition json (shape : option (list (string * schema))) : schema :=
match shape with
| Some l =>
    convertToJsonOnValidate
      (meta [("cql", VBool true); ("type", VStr "text");
             ("serialize", VFun F_JSON_stringify []);
             ("deserialize", VFun F_JSON_parse [])] (object (Some l)))
| None =>
    convertToJsonOnValidate
      (meta [("cql", VBool true); ("type", VStr "text");
             ("serialize", VFun F_JSON_stringify []);
             ("deserialize", VFun F_JSON_parse [])] any)
end.

Definition timeuuid (options : value) : schema :=
let validator :=
  guid (meta [("cql", VBool true); ("type", VStr "timeuuid");
              ("default", options_default options)] string_) in
defaultify Fuuid validator (VObj [("default", defaultUuid options "v1")]).

Definition uuid (options : value) : schema :=
let validator :=
  guid (meta [("cql", VBool true); ("type", VStr "uuid");
              ("default", options_default options)] string_) in
defaultify Fuuid validator (VObj [("default", defaultUuid options "v4")]).

(** The first argument of [map]: a type name or a schema. *)
Inductive key_type : Type :=
| KeyName (name : string)
| KeySchema (s : schema).

(** [meta.k] where [meta] is the result of [findMeta]. *)
Definition meta_prop (m : option obj) (k : string) : outcome value :=
match m with
| Some o => Ok (get k o)
| None => Throw (TypeError "cannot read property of undefined")
end.

Definition map (keyType : key_type) (valueType : schema) : outcome schema :=
let meta_ := findMeta valueType None in
type <- meta_prop meta_ "type" ;;
serialize <- meta_prop meta_ "serialize" ;;
deserialize <- meta_prop meta_ "deserialize" ;;
Ok (pattern Re_map_key valueType
      (meta [("cql", VBool true); ("type", VStr "map");
             ("mapType", VArr [VStr "text"; type]);
             ("serialize", convertMap serialize);
             ("deserialize", convertMap deserialize)] object_)).

Definition set (type : schema) : outcome schema :=
let meta_ := findMeta type None in
let set_ := items type (unique (sparse false array)) in
setType <- meta_prop meta_ "type" ;;
serialize <- meta_prop meta_ "serialize" ;;
deserialize <- meta_prop meta_ "deserialize" ;;
Ok (try_ [set_;
          unknown false
            (or_ ["add"; "remove"]
               (keys_ [("add", set_); ("remove", set_)] object_))]
      (meta [("cql", VBool true); ("type", VStr "set");
             ("setType", setType);
             ("serialize", convertArray serialize);
             ("deserialize", convertArray deserialize)] alternatives)).

Definition list (type : schema) : outcome schema :=
let meta_ := findMeta type None in
let list_ := items type (sparse false array) in
listType <- meta_prop meta_ "type" ;;
serialize <- meta_prop meta_ "serialize" ;;
deserialize <- meta_prop meta_ "deserialize" ;;
Ok (try_ [list_;
          unknown false
            (or_ ["prepend"; "append"; "remove"; "index"]
               (keys_ [("prepend", list_); ("append", list_); ("remove", list_);
                       ("index", pattern Re_index type object_)] object_))]
      (meta [("cql", VBool true); ("type", VStr "list");
             ("listType", listType);
             ("serialize", convertArray serialize);
             ("deserialize", convertArray deserialize)] alternatives)).

End Cql.

Import Joi.

(* ================================================================== *)
(** ** Notions the properties are stated with *)
(* ================================================================== *)

(** A validation accepts a value when it returns a result without error. *)
Definition accepts (w : world) (o : options) (s : schema) (v : value) : bool :=
match validate w o s v with
| Ok r => no_error r
| Throw _ => false
end.

(** The number alternative of [int64], [joi.number().integer()], on a
    string: with [convert] on, the engine reads the string as a number and
    holds the integer test against what it read. *)
Definition reads_integer (w : world) (o : options) (s : string) : bool :=
convert o && isInteger (parseNumber w s).

(** [s.meta(m1).meta(m2)...] for the annotations of [later], in order. *)
Definition annotated (later : list obj) (s : schema) : schema :=
fold_left (fun acc m => meta m acc) later s.

(** No annotation of the list has the key. *)
Definition without_key (key : string) (ms : list obj) : bool :=
forallb (fun m => negb (has_key key m)) ms.

(** The caller's context [{ operation: op }]. *)
Definition operation_context (op : string) : value := VObj [("operation", VStr op)].

(** The value a decimal numeral denotes, sign aside. *)
Fixpoint digits_value (acc : Z) (s : string) : Z :=
match s with
| EmptyString => acc
| String c rest =>
    if is_digit c then digits_value (10 * acc + Z.of_nat (nat_of_ascii c - 48)) rest
    else digits_value acc rest
end.

Definition magnitude (s : string) : Z := digits_value 0 s.

(** The pattern the fixtures hold generated identifiers against:
    [/^[A-F0-9]{8}(?:-[A-F0-9]{4}){3}-[A-F0-9]{12}$/i]. *)
Definition is_hex (c : Ascii.ascii) : bool :=
let n := nat_of_ascii c in
(Nat.leb 48 n && Nat.leb n 57) || (Nat.leb 65 n && Nat.leb n 70)
|| (Nat.leb 97 n && Nat.leb n 102).

Fixpoint uuid_shape (i : nat) (s : string) : bool :=
match s with
| EmptyString => Nat.eqb i 36
| String c rest =>
    (if Nat.eqb i 8 || Nat.eqb i 13 || Nat.eqb i 18 || Nat.eqb i 23
     then is_minus c else is_hex c)
    && uuid_shape (S i) rest
end.

Definition uuid_pattern (s : string) : bool := uuid_shape 0 s.

(** The pattern held against a validated value; the fixtures hold it
    against strings and [undefined], and [undefined] does not match. *)
Definition matches_uuid_pattern (v : value) : bool :=
match v with
| VStr s => uuid_pattern s
| _ => false
end.

(** [result.value.k] of a validation that returned. *)
Definition validated_field (r : outcome result) (k : string) : value :=
match r with
| Ok r => Cql.member (value_of r) k
| Throw _ => VUndefined
end.

(** A world for the closed examples.  Its number reader knows the plain
    decimal integers of up to 19 digits and reads every other string as no
    number; its JSON reader knows nothing. *)
Definition read_decimal (s : string) : number :=
if int64_line s then
  match s with
  | String c rest => if is_minus c then NFin (- magnitude rest) else NFin (magnitude s)
  | EmptyString => NNaN
  end
else NNaN.

Definition example_world : world :=
{| parseNumber := read_decimal;
   parseJSON := fun _ => None;
   isGuid := uuid_pattern;
   uuid_v1 := "6ba7b810-9dad-11d1-80b4-00c04fd430c8";
   uuid_v4 := "110ec58a-a0f2-4ac4-8393-c866d813b8d1";
   now_iso := "2015-09-18T00:59:41.840Z" |}.

(** The export as the specification words it, to set beside [toCql];
    [index.js] has no such function.  When some annotation of the chain has
    the [cql] key, every annotation of the chain is folded, in chain order,
    into one record, a later value replacing an earlier one of the same
    key. *)
Definition assign (target source : obj) : obj :=
fold_left (fun acc p => JS.set (fst p) (snd p) acc) source target.

Definition spec_merged_export (s : schema) : value :=
match Cql.findMeta s None with
| Some _ => VObj (fold_left assign (c_meta (common_of s)) [])
| None => VUndefined
end.

(** The name of the key type handed to [map]: the string itself, or the
    canonical type of the schema. *)
Definition key_type_name (k : Cql.key_type) : value :=
match k with
| Cql.KeyName name => VStr name
| Cql.KeySchema s => Cql.member (Cql.toCql s) "type"
end.

(** No annotation of the chain has the key. *)
Definition never_assigned (key : string) (s : schema) : Prop :=
forall m, In m (c_meta (common_of s)) -> has_key key m = false.

(** The chain of the fixture: [int().meta({some:'metadata'})
    .meta({more:'metadata'}).meta({some:'overwritten'})]. *)
Definition three_metas : schema :=
meta [("some", VStr "overwritten")]
  (meta [("more", VStr "metadata")]
     (meta [("some", VStr "metadata")] Cql.int)).

(** [{ default: d }] *)
Definition default_option (d : string) : value := VObj [("default", VStr d)].

(** [{ property: s }] given to [validate] as schema. *)
Definition one_field (field : string) (s : schema) : schema :=
object (Some [(field, s)]).

(** [map(keyType, valueType).toCql().mapType] *)
Definition mapType_of (keyType : Cql.key_type) (valueType : schema) : outcome value :=
s <- Cql.map keyType valueType ;; Ok (Cql.member (Cql.toCql s) "mapType").

(** [s.lookupKeys(...)] followed by [.lookupKeys()] on what it returned. *)
Definition lookupKeys_then_get (this : schema) (arguments : list value) : outcome Cql.returned :=
r <- Cql.lookupKeys this arguments ;;
match r with
| Cql.Derived s => Cql.lookupKeys s []
| Cql.Value v => Ok (Cql.Value v)
end.

(** [s.partitionKey(name).partitionKey()] and the same for the clustering key *)
Definition partitionKey_then_get (this : schema) (name : value) : Cql.returned :=
match Cql.partitionKey this [name] with
| Cql.Derived s => Cql.partitionKey s []
| Cql.Value v => Cql.Value v
end.

Definition clusteringKey_then_get (this : schema) (name : value) : Cql.returned :=
match Cql.clusteringKey this [name] with
| Cql.Derived s => Cql.clusteringKey s []
| Cql.Value v => Cql.Value v
end.

(** The fixture's schema: [object().partitionKey('orion_id')
    .partitionKey('website_id')], then [['a', 'b']] assigned. *)
Definition twice_assigned : schema :=
meta [("cqlPartitionKey", VStr "website_id")]
  (meta [("cqlPartitionKey", VStr "orion_id")] object_).

(** One step of the reduction in [proto.toCql]. *)
Definition export_step (memo : obj) (child : string * schema) : obj :=
JS.set (fst child) (Cql.meta_value (Cql.findMeta (snd child) None)) memo.

(** [joi.object({ id: uuid(), note: joi.string() })] *)
Definition with_plain_field : schema :=
object (Some [("id", Cql.uuid VUndefined); ("note", string_)]).




(** [joi.object().keys(children).or(names of children).unknown(false)] *)
Definition descriptor (children : list (string * schema)) : schema :=
Schema blank (KObject (Some children) [] [List.map fst children] (Some false)).

(** Case analysis on the innermost scrutinee of a hypothesis, repeated. *)
Ltac split_match H :=
  repeat (cbv [bind finalize] in H; simpl in H;
          match type of H with
          | context [match ?x with _ => _ end] =>
              lazymatch x with
              | context [match _ with _ => _ end] => fail
              | _ => destruct x eqn:?
              end
          end).

(** The sub-schemas of the builders: [var list], [var set] and the
    schema of [index]. *)
Definition full_list (t : schema) : schema := items t (sparse false array).
Definition index_of (t : schema) : schema := pattern Re_index t object_.

Definition list_children (t : schema) : list (string * schema) :=
[("prepend", full_list t); ("append", full_list t); ("remove", full_list t);
 ("index", index_of t)].




(* ================================================================== *)
(** ** index.js, continued: aliases and the conversion handlers *)
(* ================================================================== *)

Module CqlMore.


(** How the call of a stored function ends. *)
Inductive completion : Type :=
| Returns (v : value)
| ThrowsTypeError
| ThrowsSyntaxError.

(** [f(arg)] for a value [f] found in an annotation.  The result is [None]
    where the argument has a shape that is left out here: [JSON.parse] of
    a value that is no string, [convertMap(handler)] with a handler on a
    truthy value that is no plain object, [convertArray(handler)] with a
    handler on an object that has a [map] property of its own.

    - [JSON.stringify] and [JSON.parse] are the built-ins, the second read
      from the world;
    - [convertMap(handler)(data)] returns [data || {}] without a handler,
      and otherwise reduces [Object.keys(data || {})] into a fresh object
      with [memo[key] = handler(data[key])];
    - [convertArray(handler)(data)] returns [data || []] without a
      handler, and otherwise [(data || []).map(handler)], which throws on
      a value that has no [map]. *)
Fixpoint call (w : world) (f : value) (arg : value) {struct f}
  : option completion :=
match f with
| VFun F_JSON_stringify _ => Some (Returns (JSON_stringify arg))
| VFun F_JSON_parse _ =>
    match arg with
    | VStr s =>
        match parseJSON w s with
        | Some v => Some (Returns v)
        | None => Some ThrowsSyntaxError
        end
    | _ => None
    end
| VFun F_convertMap captured =>
    match captured with
    | [] => Some (Returns (or_else arg (VObj [])))
    | handler :: _ =>
        if negb (truthy handler) then Some (Returns (or_else arg (VObj [])))
        else
          match or_else arg (VObj []) with
          | VObj data =>
              (fix each (ks : list string) (memo : obj) : option completion :=
                 match ks with
                 | [] => Some (Returns (VObj memo))
                 | key :: rest =>
                     match call w handler (get key data) with
                     | Some (Returns v) => each rest (JS.set key v memo)
                     | other => other
                     end
                 end) (keys data) []
          | _ => None
          end
    end
| VFun F_convertArray captured =>
    match captured with
    | [] => Some (Returns (or_else arg (VArr [])))
    | handler :: _ =>
        if negb (truthy handler) then Some (Returns (or_else arg (VArr [])))
        else
          match or_else arg (VArr []) with
          | VArr data =>
              (fix each (l : list value) : option completion :=
                 match l with
                 | [] => Some (Returns (VArr []))
                 | x :: rest =>
                     match call w handler x with
                     | Some (Returns v) =>
                         match each rest with
                         | Some (Returns (VArr vs)) => Some (Returns (VArr (v :: vs)))
                         | other => other
                         end
                     | other => other
                     end
                 end) data
          | VObj data =>
              if is_undefined (get "map" data) then Some ThrowsTypeError else None
          | _ => Some ThrowsTypeError
          end
    end
| _ => Some ThrowsTypeError
end.

End CqlMore.

(** [s.toCql().k] for a collection built by [map], [set] or [list]. *)
Definition exported (s : outcome schema) (k : string) : value :=
match s with
| Ok s => Cql.member (Cql.toCql s) k
| Throw _ => VUndefined
end.

(** A string value. *)
Definition is_string (v : value) : bool :=
match v with
| VStr _ => true
| _ => false
end.


(** When a date default configured with [when_] fires under [op]. *)
Definition date_fires (when_ op : string) : bool :=
String.eqb when_ op
|| (String.eqb when_ "update" && (String.eqb op "create" || String.eqb op "update")).

(** The nil identifier. *)
Definition nil_uuid : string := "00000000-0000-0000-0000-000000000000".

(** The line feed, as a string. *)
Definition LF : string := String (ascii_of_nat 10) "".








(* ================================================================== *)
(** ** Lemmas on objects and annotation chains *)
(* ================================================================== *)

Section Objects.

Variables (k k' : string) (v : value).

Lemma get_set : forall o : obj,
  get k (JS.set k' v o) = if String.eqb k k' then v else get k o.
Proof.
  unfold get.
  induction o as [| [k0 v0] rest IH]; simpl.
  - destruct (String.eqb k k'); reflexivity.
  - destruct (String.eqb k' k0) eqn:E0; simpl.
    + apply String.eqb_eq in E0. subst k0.
      destruct (String.eqb k k'); reflexivity.
    + destruct (String.eqb k k0) eqn:E1.
      * apply String.eqb_eq in E1. subst k0.
        rewrite String.eqb_sym in E0. rewrite E0. reflexivity.
      * exact IH.
Qed.

Lemma has_key_set : forall o : obj,
  has_key k (JS.set k' v o) = String.eqb k k' || has_key k o.
Proof.
  induction o as [| [k0 v0] rest IH]; simpl.
  - destruct (String.eqb k k'); reflexivity.
  - destruct (String.eqb k' k0) eqn:E0; simpl.
    + apply String.eqb_eq in E0. subst k0.
      destruct (String.eqb k k'); reflexivity.
    + destruct (String.eqb k k0) eqn:E1.
      * now rewrite orb_true_r.
      * exact IH.
Qed.

Lemma lookup_set : forall o : obj,
  lookup k (JS.set k' v o) = if String.eqb k k' then Some v else lookup k o.
Proof.
  induction o as [| [k0 v0] rest IH]; simpl.
  - destruct (String.eqb k k'); reflexivity.
  - destruct (String.eqb k' k0) eqn:E0; simpl.
    + apply String.eqb_eq in E0. subst k0.
      destruct (String.eqb k k'); reflexivity.
    + destruct (String.eqb k k0) eqn:E1.
      * apply String.eqb_eq in E1. subst k0.
        rewrite String.eqb_sym in E0. rewrite E0. reflexivity.
      * exact IH.
Qed.

End Objects.

Lemma last_some_snoc : forall (A : Type) (l : list A) (x : A),
  last (List.map Some (l ++ [x])%list) None = Some x.
Proof.
  intros A l x. rewrite List.map_app. simpl. apply last_last.
Qed.

Lemma common_of_meta : forall m s,
  c_meta (common_of (meta m s)) = (c_meta (common_of s) ++ [m])%list.
Proof. intros m [c k]. reflexivity. Qed.

Lemma kind_of_meta : forall m s, kind_of (meta m s) = kind_of s.
Proof. intros m [c k]. reflexivity. Qed.

Lemma describe_meta_meta : forall m s,
  describe_meta (meta m s) = Some (c_meta (common_of s) ++ [m])%list.
Proof.
  intros m s. unfold describe_meta. rewrite common_of_meta.
  destruct (c_meta (common_of s)); reflexivity.
Qed.

Lemma describe_meta_chain : forall s,
  match describe_meta s with Some ms => ms | None => [] end = c_meta (common_of s).
Proof.
  intros s. unfold describe_meta. destruct (c_meta (common_of s)); reflexivity.
Qed.

(** Attaching an annotation that has the key makes it the one found. *)
Lemma findMeta_meta_hit : forall key m s,
  key <> "" -> has_key key m = true ->
  Cql.findMeta (meta m s) (Some key) = Some m.
Proof.
  intros key m s Hne Hm. unfold Cql.findMeta.
  apply String.eqb_neq in Hne. rewrite Hne.
  rewrite describe_meta_meta, filter_app. simpl. rewrite Hm.
  apply last_some_snoc.
Qed.

(** Attaching an annotation without the key changes nothing. *)
Lemma findMeta_meta_miss : forall key m s,
  has_key (match key with
           | Some k => if String.eqb k "" then "cql" else k
           | None => "cql"
           end) m = false ->
  Cql.findMeta (meta m s) key = Cql.findMeta s key.
Proof.
  intros key m s Hm. unfold Cql.findMeta.
  rewrite describe_meta_meta, describe_meta_chain, filter_app. simpl.
  rewrite Hm, app_nil_r. reflexivity.
Qed.

(** What [findMeta] returns is one annotation of the chain, as attached. *)
Lemma findMeta_in_chain : forall s m,
  Cql.findMeta s None = Some m ->
  In m (c_meta (common_of s)) /\ has_key "cql" m = true.
Proof.
  intros s m. unfold Cql.findMeta. rewrite describe_meta_chain.
  generalize (c_meta (common_of s)). intros chain H.
  assert (Hin : In m (filter (fun a => has_key "cql" a) chain)).
  { revert H. generalize (filter (fun a => has_key "cql" a) chain).
    intros l. induction l as [| a [| b l'] IH]; simpl; intros H.
    - discriminate.
    - left. congruence.
    - right. apply IH. exact H. }
  apply filter_In in Hin. exact Hin.
Qed.

Lemma findMeta_never_assigned : forall key s,
  key <> "" -> never_assigned key s -> Cql.findMeta s (Some key) = None.
Proof.
  intros key s Hne Hs. unfold Cql.findMeta.
  apply String.eqb_neq in Hne. rewrite Hne, describe_meta_chain.
  unfold never_assigned in Hs. revert Hs.
  generalize (c_meta (common_of s)). intros chain Hs.
  replace (filter (fun m => has_key key m) chain) with (@nil obj); [reflexivity |].
  symmetry. induction chain as [| a l IH]; simpl; [reflexivity |].
  rewrite (Hs a (or_introl eq_refl)). apply IH.
  intros m Hm. apply Hs. right. exact Hm.
Qed.

(* ================================================================== *)
(** ** Export of one validator *)
(* ================================================================== *)

(** C1.  On three chained [.meta()] attachments [toCql()] returns the
    annotation that carries [cql] exactly as it was attached: the keys
    [some] and [more] of the later annotations are not in it, where the
    merge of the specification (and the fixture "should merge metadata into
    CQL metadata") has [some: 'overwritten'] and [more: 'metadata']. *)
Theorem C1_toCql_returns_single_annotation :
  Cql.toCql three_metas = VObj [("cql", VBool true); ("type", VStr "int")]
  /\ spec_merged_export three_metas
     = VObj [("cql", VBool true); ("type", VStr "int");
             ("some", VStr "overwritten"); ("more", VStr "metadata")]
  /\ Cql.member (Cql.toCql three_metas) "some" = VUndefined
  /\ Cql.member (Cql.toCql three_metas) "more" = VUndefined
  /\ (forall s, match Cql.findMeta s None with
                 | Some m => In m (c_meta (common_of s))
                 | None => True
                 end).
Proof.
  repeat split; try reflexivity.
  intros s. destruct (Cql.findMeta s None) as [m |] eqn:H; [| exact I].
  apply (findMeta_in_chain s m H).
Qed.

(* ================================================================== *)
(** ** Identifier defaults *)
(* ================================================================== *)

(** C2, as stated, fails: [uuid()] without options, [{}] validated under
    operation ['create'], leaves the field undefined. *)
Lemma C2_no_default_without_option :
  validate_with example_world (operation_context "create")
    (one_field "property" (Cql.uuid VUndefined)) (VObj [])
  = Ok (pass (VObj []))
  /\ validated_field
       (validate_with example_world (operation_context "create")
          (one_field "property" (Cql.uuid VUndefined)) (VObj []))
       "property" = VUndefined
  /\ matches_uuid_pattern
       (validated_field
          (validate_with example_world (operation_context "create")
             (one_field "property" (Cql.uuid VUndefined)) (VObj []))
          "property") = false
  /\ validate_with example_world (operation_context "create")
       (one_field "property" (Cql.timeuuid VUndefined)) (VObj [])
     = Ok (pass (VObj []))
  /\ matches_uuid_pattern
       (validated_field
          (validate_with example_world (operation_context "create")
             (one_field "property" (Cql.timeuuid VUndefined)) (VObj []))
          "property") = false
  /\ uuid_pattern (uuid_v4 example_world) = true
  /\ uuid_pattern (uuid_v1 example_world) = true.
Proof. repeat split. Qed.

(** C2, amended.  [uuid()] and [timeuuid()] called without options register
    no default: validating [{}] leaves the field undefined whatever the
    operation.  A value is generated under ['create'] when the caller
    names the builder's version as default option, and none under
    ['update']. *)
Theorem C2_uuid_without_option_stays_undefined :
  forall (w : world) (ctx : value) (field : string),
    c_default (common_of (Cql.uuid VUndefined)) = None
    /\ c_default (common_of (Cql.timeuuid VUndefined)) = None
    /\ validate_with w ctx (one_field field (Cql.uuid VUndefined)) (VObj [])
       = Ok (pass (VObj []))
    /\ validate_with w ctx (one_field field (Cql.timeuuid VUndefined)) (VObj [])
       = Ok (pass (VObj []))
    /\ validate_with w (operation_context "create")
         (one_field field (Cql.uuid (default_option "v4"))) (VObj [])
       = Ok (pass (VObj [(field, VStr (uuid_v4 w))]))
    /\ validate_with w (operation_context "create")
         (one_field field (Cql.timeuuid (default_option "v1"))) (VObj [])
       = Ok (pass (VObj [(field, VStr (uuid_v1 w))]))
    /\ validate_with w (operation_context "update")
         (one_field field (Cql.uuid (default_option "v4"))) (VObj [])
       = Ok (pass (VObj []))
    /\ validate_with w (operation_context "update")
         (one_field field (Cql.timeuuid (default_option "v1"))) (VObj [])
       = Ok (pass (VObj [])).
Proof. intros w ctx field. repeat split. Qed.

Lemma defaultUuid_replaced : forall d version : string,
  d <> "" -> d <> version -> d <> "empty" ->
  Cql.defaultUuid (default_option d) version = VStr version.
Proof.
  intros d version H0 Hv He. unfold Cql.defaultUuid, default_option. simpl.
  apply String.eqb_neq in H0, Hv, He. rewrite H0, Hv, He. reflexivity.
Qed.

(** C10.  A default option that is a non-empty string other than ['empty']
    and the builder's own version is replaced by that version:
    [uuid({default: d})] registers the default that [uuid({default:'v4'})]
    registers and generates with [uuid.v4()] under ['create'], and
    [timeuuid({default: d})] does so with ['v1']; the annotation's [default]
    still holds [d]. *)
Theorem C10_unsupported_default_replaced_by_version :
  forall (d1 d2 : string),
    d1 <> "" -> d1 <> "empty" -> d1 <> "v4" ->
    d2 <> "" -> d2 <> "empty" -> d2 <> "v1" ->
    (c_default (common_of (Cql.uuid (default_option d1)))
     = c_default (common_of (Cql.uuid (default_option "v4")))
     /\ (forall w field,
           validate_with w (operation_context "create")
             (one_field field (Cql.uuid (default_option d1))) (VObj [])
           = Ok (pass (VObj [(field, VStr (uuid_v4 w))])))
     /\ Cql.member (Cql.toCql (Cql.uuid (default_option d1))) "default" = VStr d1)
    /\
    (c_default (common_of (Cql.timeuuid (default_option d2)))
     = c_default (common_of (Cql.timeuuid (default_option "v1")))
     /\ (forall w field,
           validate_with w (operation_context "create")
             (one_field field (Cql.timeuuid (default_option d2))) (VObj [])
           = Ok (pass (VObj [(field, VStr (uuid_v1 w))])))
     /\ Cql.member (Cql.toCql (Cql.timeuuid (default_option d2))) "default" = VStr d2).
Proof.
  intros d1 d2 A1 A2 A3 B1 B2 B3.
  assert (E1 := defaultUuid_replaced d1 "v4" A1 A3 A2).
  assert (E2 := defaultUuid_replaced d2 "v1" B1 B3 B2).
  unfold Cql.uuid, Cql.timeuuid. rewrite E1, E2.
  repeat split.
Qed.

Lemma C10_witness :
  (c_default (common_of (Cql.uuid (default_option "v1")))
   = c_default (common_of (Cql.uuid (default_option "v4")))
   /\ (forall w field,
         validate_with w (operation_context "create")
           (one_field field (Cql.uuid (default_option "v1"))) (VObj [])
         = Ok (pass (VObj [(field, VStr (uuid_v4 w))])))
   /\ Cql.member (Cql.toCql (Cql.uuid (default_option "v1"))) "default" = VStr "v1")
  /\
  (c_default (common_of (Cql.timeuuid (default_option "v4")))
   = c_default (common_of (Cql.timeuuid (default_option "v1")))
   /\ (forall w field,
         validate_with w (operation_context "create")
           (one_field field (Cql.timeuuid (default_option "v4"))) (VObj [])
         = Ok (pass (VObj [(field, VStr (uuid_v1 w))])))
   /\ Cql.member (Cql.toCql (Cql.timeuuid (default_option "v4"))) "default" = VStr "v4").
Proof.
  apply (C10_unsupported_default_replaced_by_version "v1" "v4");
    intro H; discriminate H.
Defined.

(* ================================================================== *)
(** ** JSON fields *)
(* ================================================================== *)

(** C3.  A field built by [json()] comes back encoded only when its
    validated value is truthy.  The falsy values [''], [false] and [null]
    come back as they went in, where their encodings are a pair of double
    quotes, [false] and [null] as strings (which the fixture "should accept
    falsy values that are JSON-serializable" expects). *)
Theorem C3_json_encodes_truthy_values_only :
  (forall (w : world) (ctx : value) (v : value),
     validate_with w ctx (Cql.json None) v
     = Ok (pass (if truthy v then JSON_stringify v else v)))
  /\ (forall w ctx, validate_with w ctx (Cql.json None) (VStr "") = Ok (pass (VStr "")))
  /\ JSON_stringify (VStr "") = VStr (quote "")
  /\ (forall w ctx,
        validate_with w ctx (Cql.json None) (VBool false) = Ok (pass (VBool false)))
  /\ JSON_stringify (VBool false) = VStr "false"
  /\ (forall w ctx, validate_with w ctx (Cql.json None) VNull = Ok (pass VNull))
  /\ JSON_stringify VNull = VStr "null"
  /\ (forall w ctx,
        validate_with w ctx (one_field "phones" (Cql.json None))
          (VObj [("phones", VStr "")])
        = Ok (pass (VObj [("phones", VStr "")]))).
Proof.
  repeat split.
  intros w ctx v. destruct v as [| | b | n | s | l | o | f l]; try reflexivity.
  - destruct b; reflexivity.
  - destruct n as [z | b |]; try reflexivity.
    unfold validate_with. simpl. destruct (Z.eqb z 0); reflexivity.
  - unfold validate_with. simpl. destruct (String.eqb s ""); reflexivity.
Qed.

(* ================================================================== *)
(** ** Maps *)
(* ================================================================== *)

(** C4, as stated, fails: with the key type [ascii()] the first component
    of [mapType] is ['text'], not ['ascii']; so it is with the key type
    name ['uuid']. *)
Lemma C4_key_type_not_recorded :
  mapType_of (Cql.KeySchema Cql.ascii) Cql.text = Ok (VArr [VStr "text"; VStr "text"])
  /\ key_type_name (Cql.KeySchema Cql.ascii) = VStr "ascii"
  /\ mapType_of (Cql.KeyName "uuid") Cql.text = Ok (VArr [VStr "text"; VStr "text"])
  /\ key_type_name (Cql.KeyName "uuid") = VStr "uuid".
Proof. repeat split. Qed.

(** C4, amended.  For every key type and every value validator that has a
    canonical annotation, [mapType] is the pair of the constant ['text']
    and the [type] of that annotation: the key type given is not used. *)
Theorem C4_mapType_is_text_and_value_type :
  forall (keyType : Cql.key_type) (valueType : schema) (m : obj),
    Cql.findMeta valueType None = Some m ->
    mapType_of keyType valueType = Ok (VArr [VStr "text"; get "type" m]).
Proof.
  intros keyType valueType m H. unfold mapType_of, Cql.map.
  rewrite H. reflexivity.
Qed.

Lemma C4_witness :
  mapType_of (Cql.KeySchema Cql.ascii) (Cql.uuid VUndefined)
  = Ok (VArr [VStr "text"; VStr "uuid"]).
Proof.
  apply (C4_mapType_is_text_and_value_type (Cql.KeySchema Cql.ascii)
           (Cql.uuid VUndefined)
           [("cql", VBool true); ("type", VStr "uuid"); ("default", VUndefined)]).
  reflexivity.
Defined.

(* ================================================================== *)
(** ** Keys of an object schema *)
(* ================================================================== *)

(** C6.  [lookupKeys] called with strings, as in [lookupKeys('a', 'b', 'c')],
    throws a TypeError: [slice] is [Function.prototype.call] without its
    receiver.  (The README has the arguments "collected into an array".)
    With a single array the array is stored and read back, and the getter
    of a schema without lookup keys gives the empty sequence. *)
Theorem C6_lookupKeys_variadic_throws :
  (forall (this : schema) (name : string) (more : list value),
     Cql.lookupKeys this (VStr name :: more)
     = Throw (TypeError "Function.prototype.call called on a value that is not a function"))
  /\ Cql.lookupKeys object_ [VStr "a"; VStr "b"; VStr "c"]
     = Throw (TypeError "Function.prototype.call called on a value that is not a function")
  /\ (forall (this : schema) (names : list value),
        Cql.lookupKeys this [VArr names]
        = Ok (Cql.Derived (meta [("cqlLookupKeys", VArr names)] this))
        /\ lookupKeys_then_get this [VArr names] = Ok (Cql.Value (VArr names)))
  /\ (forall shape, Cql.lookupKeys (object shape) [] = Ok (Cql.Value (VArr []))).
Proof.
  repeat split.
  - intros. unfold lookupKeys_then_get, Cql.lookupKeys. simpl.
    unfold Cql.findMetaValue.
    rewrite findMeta_meta_hit; [reflexivity | discriminate | reflexivity].
  - intros [l |]; [destruct l |]; reflexivity.
Qed.

Lemma partitionKey_roundtrip : forall this name,
  partitionKey_then_get this name = Cql.Value (or_else name (VArr [])).
Proof.
  intros. unfold partitionKey_then_get, Cql.partitionKey, Cql.findMetaValue.
  rewrite findMeta_meta_hit; [| discriminate | reflexivity].
  reflexivity.
Qed.

Lemma clusteringKey_roundtrip : forall this name,
  clusteringKey_then_get this name = Cql.Value (or_else name (VArr [])).
Proof.
  intros. unfold clusteringKey_then_get, Cql.clusteringKey, Cql.findMetaValue.
  rewrite findMeta_meta_hit; [| discriminate | reflexivity].
  reflexivity.
Qed.

(** Annotations attached later that do not have the key leave what
    [findMetaValue] reads for it. *)
Lemma findMetaValue_annotated : forall key later s,
  key <> "" ->
  without_key key later = true ->
  Cql.findMetaValue (annotated later s) key = Cql.findMetaValue s key.
Proof.
  intros key later. induction later as [| m rest IH]; intros s Hne Hw.
  - reflexivity.
  - simpl in Hw. apply andb_true_iff in Hw. destruct Hw as [Hm Hrest].
    change (annotated (m :: rest) s) with (annotated rest (meta m s)).
    rewrite IH by assumption.
    unfold Cql.findMetaValue. rewrite findMeta_meta_miss; [reflexivity |].
    apply String.eqb_neq in Hne. rewrite Hne.
    apply negb_true_iff in Hm. exact Hm.
Qed.

(** C7, as stated, fails: the empty string is a string, and after
    [partitionKey('')] or [clusteringKey('')] the getter returns the empty
    sequence, not the string that was assigned. *)
Lemma C7_empty_string_not_returned :
  partitionKey_then_get object_ (VStr "") = Cql.Value (VArr [])
  /\ clusteringKey_then_get object_ (VStr "") = Cql.Value (VArr [])
  /\ Cql.partitionKey object_ [VStr ""]
     = Cql.Derived (meta [("cqlPartitionKey", VStr "")] object_)
  /\ strict_eq (VArr []) (VStr "") = false.
Proof. repeat split. Qed.

(** C7, amended.  On any schema [this], whatever was assigned to it
    before, and whatever annotations without the key are attached after
    the assignment (among them the other keys): the getter returns the
    value of the most recent [partitionKey(name)] (or [clusteringKey(name)])
    as it was given when that value is truthy, and the empty sequence when
    it is falsy, as [null] and the empty string are; on a schema whose
    chain never had the key it returns the empty sequence.  The setter
    returns the schema derived by [meta], whose chain is the chain of
    [this] with one annotation more; [this] is a value and stays as it
    was. *)
Theorem C7_key_getters_return_last_assigned :
  forall (this fresh : schema) (name : value) (laterP laterC : list obj),
    without_key "cqlPartitionKey" laterP = true ->
    without_key "cqlClusteringKey" laterC = true ->
    never_assigned "cqlPartitionKey" fresh ->
    never_assigned "cqlClusteringKey" fresh ->
    Cql.partitionKey (annotated laterP (meta [("cqlPartitionKey", name)] this)) []
    = Cql.Value (if truthy name then name else VArr [])
    /\ Cql.clusteringKey (annotated laterC (meta [("cqlClusteringKey", name)] this)) []
       = Cql.Value (if truthy name then name else VArr [])
    /\ Cql.partitionKey (annotated laterP (meta [("cqlPartitionKey", VNull)] this)) []
       = Cql.Value (VArr [])
    /\ Cql.clusteringKey (annotated laterC (meta [("cqlClusteringKey", VNull)] this)) []
       = Cql.Value (VArr [])
    /\ Cql.partitionKey (annotated laterP fresh) [] = Cql.Value (VArr [])
    /\ Cql.clusteringKey (annotated laterC fresh) [] = Cql.Value (VArr [])
    /\ Cql.partitionKey this [name] = Cql.Derived (meta [("cqlPartitionKey", name)] this)
    /\ Cql.clusteringKey this [name] = Cql.Derived (meta [("cqlClusteringKey", name)] this)
    /\ c_meta (common_of (meta [("cqlPartitionKey", name)] this))
       = (c_meta (common_of this) ++ [[("cqlPartitionKey", name)]])%list
    /\ kind_of (meta [("cqlPartitionKey", name)] this) = kind_of this.
Proof.
  intros this fresh name laterP laterC HP HC Hp Hc.
  assert (P : forall v,
            Cql.partitionKey (annotated laterP (meta [("cqlPartitionKey", v)] this)) []
            = Cql.Value (if truthy v then v else VArr [])).
  { intros v. unfold Cql.partitionKey.
    rewrite findMetaValue_annotated; [| discriminate | exact HP].
    unfold Cql.findMetaValue.
    rewrite findMeta_meta_hit; [reflexivity | discriminate | reflexivity]. }
  assert (C : forall v,
            Cql.clusteringKey (annotated laterC (meta [("cqlClusteringKey", v)] this)) []
            = Cql.Value (if truthy v then v else VArr [])).
  { intros v. unfold Cql.clusteringKey.
    rewrite findMetaValue_annotated; [| discriminate | exact HC].
    unfold Cql.findMetaValue.
    rewrite findMeta_meta_hit; [reflexivity | discriminate | reflexivity]. }
  split; [apply P |]. split; [apply C |].
  split; [apply (P VNull) |]. split; [apply (C VNull) |].
  repeat split.
  - unfold Cql.partitionKey.
    rewrite findMetaValue_annotated; [| discriminate | exact HP].
    unfold Cql.findMetaValue.
    rewrite (findMeta_never_assigned "cqlPartitionKey" fresh);
      [reflexivity | discriminate | exact Hp].
  - unfold Cql.clusteringKey.
    rewrite findMetaValue_annotated; [| discriminate | exact HC].
    unfold Cql.findMetaValue.
    rewrite (findMeta_never_assigned "cqlClusteringKey" fresh);
      [reflexivity | discriminate | exact Hc].
  - apply common_of_meta.
  - apply kind_of_meta.
Qed.

(** [object().partitionKey('orion_id').partitionKey('website_id')
      .partitionKey('car_id').clusteringKey('manufacturer_id').partitionKey()]
    and the like. *)
Lemma C7_witness :
  Cql.partitionKey
    (annotated [[("cqlClusteringKey", VStr "manufacturer_id")]]
       (meta [("cqlPartitionKey", VStr "car_id")] twice_assigned)) []
  = Cql.Value (VStr "car_id")
  /\ Cql.clusteringKey
       (annotated [[("cqlLookupKeys", VArr [VStr "vin"])];
                   [("cqlPartitionKey", VStr "manufacturer_id")]]
          (meta [("cqlClusteringKey", VStr "car_id")] twice_assigned)) []
     = Cql.Value (VStr "car_id")
  /\ Cql.partitionKey
       (annotated [[("cqlClusteringKey", VStr "manufacturer_id")]]
          (meta [("cqlPartitionKey", VNull)] twice_assigned)) []
     = Cql.Value (VArr [])
  /\ Cql.clusteringKey
       (annotated [[("cqlLookupKeys", VArr [VStr "vin"])];
                   [("cqlPartitionKey", VStr "manufacturer_id")]]
          (meta [("cqlClusteringKey", VNull)] twice_assigned)) []
     = Cql.Value (VArr [])
  /\ Cql.partitionKey
       (annotated [[("cqlClusteringKey", VStr "manufacturer_id")]] object_) []
     = Cql.Value (VArr [])
  /\ Cql.clusteringKey
       (annotated [[("cqlLookupKeys", VArr [VStr "vin"])];
                   [("cqlPartitionKey", VStr "manufacturer_id")]] object_) []
     = Cql.Value (VArr [])
  /\ Cql.partitionKey twice_assigned [VStr "car_id"]
     = Cql.Derived (meta [("cqlPartitionKey", VStr "car_id")] twice_assigned)
  /\ Cql.clusteringKey twice_assigned [VStr "car_id"]
     = Cql.Derived (meta [("cqlClusteringKey", VStr "car_id")] twice_assigned)
  /\ c_meta (common_of (meta [("cqlPartitionKey", VStr "car_id")] twice_assigned))
     = (c_meta (common_of twice_assigned) ++ [[("cqlPartitionKey", VStr "car_id")]])%list
  /\ kind_of (meta [("cqlPartitionKey", VStr "car_id")] twice_assigned)
     = kind_of twice_assigned.
Proof.
  exact (C7_key_getters_return_last_assigned twice_assigned object_ (VStr "car_id")
           [[("cqlClusteringKey", VStr "manufacturer_id")]]
           [[("cqlLookupKeys", VArr [VStr "vin"])];
            [("cqlPartitionKey", VStr "manufacturer_id")]]
           eq_refl eq_refl
           (fun m H => match H with end) (fun m H => match H with end)).
Defined.

(* ================================================================== *)
(** ** 64-bit integers *)
(* ================================================================== *)

(** [int64]'s two alternatives on a string: the numeral pattern, held
    against the whole string, or else the number alternative. *)
Lemma int64_accepts_string : forall w o name (s : string),
  accepts w o (Cql.int64 name) (VStr s) = int64_line s || reads_integer w o s.
Proof.
  intros w o name s. unfold accepts, reads_integer, Cql.int64.
  cbn -[isInteger int64_line].
  destruct (String.eqb s "") eqn:Es.
  - apply String.eqb_eq in Es. subst s. cbn -[isInteger].
    destruct (convert o); cbn -[isInteger]; [| reflexivity].
    destruct (parseNumber w "") as [z | [] |]; cbn -[isInteger]; try reflexivity;
      destruct (isInteger (NFin z)); reflexivity.
  - cbn -[isInteger int64_line].
    destruct (int64_line s); cbn -[isInteger]; [reflexivity |].
    destruct (convert o); cbn -[isInteger]; [| reflexivity].
    destruct (parseNumber w s) as [z | [] |]; cbn -[isInteger]; try reflexivity;
      destruct (isInteger (NFin z)); reflexivity.
Qed.




(* ================================================================== *)
(** ** Export of an object schema *)
(* ================================================================== *)

Lemma has_key_export : forall children memo k,
  has_key k (fold_left export_step children memo)
  = existsb (String.eqb k) (List.map fst children) || has_key k memo.
Proof.
  induction children as [| [k0 t0] rest IH]; intros memo k; simpl.
  - reflexivity.
  - rewrite IH. unfold export_step. simpl. rewrite has_key_set.
    destruct (String.eqb k k0), (existsb (String.eqb k) (List.map fst rest));
      reflexivity.
Qed.

Lemma lookup_export_other : forall children memo k,
  ~ In k (List.map fst children) ->
  lookup k (fold_left export_step children memo) = lookup k memo.
Proof.
  induction children as [| [k0 t0] rest IH]; intros memo k Hk; simpl.
  - reflexivity.
  - rewrite IH.
    + unfold export_step. simpl. rewrite lookup_set.
      destruct (String.eqb k k0) eqn:E; [| reflexivity].
      apply String.eqb_eq in E. subst k0. exfalso. apply Hk. left. reflexivity.
    + intro H. apply Hk. right. exact H.
Qed.

Lemma lookup_export : forall children memo k t,
  NoDup (List.map fst children) -> In (k, t) children ->
  lookup k (fold_left export_step children memo)
  = Some (Cql.meta_value (Cql.findMeta t None)).
Proof.
  induction children as [| [k0 t0] rest IH]; intros memo k t Hnd Hin; simpl.
  - destruct Hin.
  - inversion Hnd as [| x l Hk0 Hrest]; subst.
    destruct Hin as [Heq | Hin].
    + inversion Heq; subst. rewrite lookup_export_other by exact Hk0.
      unfold export_step. simpl. rewrite lookup_set, String.eqb_refl. reflexivity.
    + apply IH; assumption.
Qed.

(** C9, as stated, fails: the field [note], whose validator has no
    annotation with [cql], is a key of the export, bound to [undefined]. *)
Lemma C9_plain_field_is_a_key :
  Cql.toCql with_plain_field
  = VObj [("id", VObj [("cql", VBool true); ("type", VStr "uuid");
                       ("default", VUndefined)]);
          ("note", VUndefined)]
  /\ Cql.findMeta string_ None = None
  /\ has_key "note" [("id", VObj [("cql", VBool true); ("type", VStr "uuid");
                                  ("default", VUndefined)]);
                     ("note", VUndefined)] = true.
Proof. repeat split. Qed.

(** C9, amended.  For an object schema with declared children of distinct
    names, [toCql()] returns a mapping whose keys are exactly the declared
    field names; each field is bound to the annotation [findMeta] finds
    for its validator, and a field whose validator has no annotation with
    [cql] is still a key, bound to [undefined]. *)
Theorem C9_toCql_keeps_every_declared_field :
  forall (s : schema) (children : list (string * schema)),
    inner_children s = Some children ->
    NoDup (List.map fst children) ->
    exists o : obj,
      Cql.toCql s = VObj o
      /\ (forall k, has_key k o = existsb (String.eqb k) (List.map fst children))
      /\ (forall k t, In (k, t) children ->
            lookup k o = Some (Cql.meta_value (Cql.findMeta t None)))
      /\ (forall k t, In (k, t) children -> Cql.findMeta t None = None ->
            lookup k o = Some VUndefined /\ has_key k o = true).
Proof.
  intros s children Hs Hnd.
  exists (fold_left export_step children []).
  assert (Hkeys : forall k, has_key k (fold_left export_step children [])
                            = existsb (String.eqb k) (List.map fst children)).
  { intros k. rewrite has_key_export. simpl. apply orb_false_r. }
  repeat split.
  - unfold Cql.toCql, Cql.proto_toCql. unfold inner_children in Hs |- *.
    destruct (kind_of s); try discriminate Hs.
    rewrite Hs. reflexivity.
  - exact Hkeys.
  - intros k t Hin. apply lookup_export; assumption.
  - rewrite (lookup_export children [] k t Hnd H), H0. reflexivity.
  - rewrite Hkeys. apply existsb_exists. exists k. split.
    + apply (in_map fst children (k, t) H).
    + apply String.eqb_refl.
Qed.

Lemma C9_witness :
  exists o : obj,
    Cql.toCql with_plain_field = VObj o
    /\ (forall k, has_key k o = existsb (String.eqb k) ["id"; "note"])
    /\ (forall k t, In (k, t) [("id", Cql.uuid VUndefined); ("note", string_)] ->
          lookup k o = Some (Cql.meta_value (Cql.findMeta t None)))
    /\ (forall k t, In (k, t) [("id", Cql.uuid VUndefined); ("note", string_)] ->
          Cql.findMeta t None = None ->
          lookup k o = Some VUndefined /\ has_key k o = true).
Proof.
  apply (C9_toCql_keeps_every_declared_field with_plain_field
           [("id", Cql.uuid VUndefined); ("note", string_)]).
  - reflexivity.
  - repeat constructor; simpl; intuition discriminate.
Defined.

(* ================================================================== *)
(** ** Partial-update descriptors of lists and sets *)
(* ================================================================== *)








Lemma object_value_defined : forall w o cs ps ors au v r,
  validate w o (Schema blank (KObject cs ps ors au)) v = Ok r ->
  no_error r = true ->
  is_undefined (value_of r) = is_undefined v.
Proof.
  intros w o cs ps ors au v r H Hok.
  destruct v; simpl in H;
    split_match H; inversion H; subst; cbv [no_error fail pass error value_of] in *;
    first [congruence | reflexivity].
Qed.



Lemma alternatives_array_then : forall w o ms sp un incl (second : schema) d,
  validate w o
    (Schema {| c_meta := ms; c_valids := []; c_invalids := []; c_convert := None;
               c_default := None; c_post := fun r => r |}
            (KAlternatives [Schema blank (KArray sp un incl); second]))
    (VObj d)
  = (r <- validate w o second (VObj d) ;;
     if no_error r then Ok r else Ok (fail "alternatives.base" VUndefined)).
Proof.
  intros. simpl.
  destruct (validate w o second (VObj d)) as [[[e |] v] | e]; simpl;
    try reflexivity.
  destruct v; reflexivity.
Qed.




(** The three descriptors of the fixtures, over [text()] elements. *)
Example descriptor_fixtures :
  (lst <- Cql.list Cql.text ;;
   Ok (List.map (accepts example_world default_options lst)
         [VObj [("remove", VArr [VStr "x"])];
          VObj [];
          VObj [("append", VArr [VStr "x"]); ("bogus", VNum (NFin 1))]]))
  = Ok [true; false; false]
  /\ (st <- Cql.set Cql.text ;;
      Ok (List.map (accepts example_world default_options st)
            [VObj [("remove", VArr [VStr "x"])];
             VObj [];
             VObj [("add", VArr [VStr "x"]); ("bogus", VNum (NFin 1))]]))
     = Ok [true; false; false].
Proof. split; reflexivity. Qed.

(* ================================================================== *)
(** ** Further properties: annotations and keys *)
(* ================================================================== *)

Lemma inner_children_meta : forall m s, inner_children (meta m s) = inner_children s.
Proof. intros m [c k]. reflexivity. Qed.

(** The export of a schema after one more annotation. *)
Lemma toCql_meta : forall (s : schema) (m : obj),
  Cql.toCql (meta m s)
  = match inner_children s with
    | Some _ => Cql.toCql s
    | None => if has_key "cql" m then VObj m else Cql.toCql s
    end.
Proof.
  intros s m.
  assert (F : Cql.findMeta (meta m s) None
              = if has_key "cql" m then Some m else Cql.findMeta s None).
  { destruct (has_key "cql" m) eqn:E.
    - unfold Cql.findMeta. rewrite describe_meta_meta, filter_app. simpl.
      rewrite E. apply last_some_snoc.
    - apply findMeta_meta_miss. exact E. }
  unfold Cql.toCql, Cql.proto_toCql, Cql.any_toCql.
  rewrite kind_of_meta, inner_children_meta, F.
  unfold inner_children.
  destruct (kind_of s) as [| | | | | cs ps ors au]; try (destruct (has_key "cql" m); reflexivity).
  destruct cs; [reflexivity |]. destruct (has_key "cql" m); reflexivity.
Qed.

(** X1.  On a schema without declared children, an annotation attached
    with [.meta()] that has the [cql] key becomes the whole export, and one
    without it leaves the export as it was; on an object schema with
    declared children no annotation of the object changes the export. *)
Theorem X1_last_cql_annotation_is_the_export :
  forall (s : schema) (m : obj),
    Cql.toCql (meta m s)
    = match inner_children s with
      | Some _ => Cql.toCql s
      | None => if has_key "cql" m then VObj m else Cql.toCql s
      end.
Proof. exact toCql_meta. Qed.

Lemma findMetaValue_meta_other : forall key key' v s,
  String.eqb key key' = false -> key <> "" ->
  Cql.findMetaValue (meta [(key', v)] s) key = Cql.findMetaValue s key.
Proof.
  intros key key' v s Hk Hne. unfold Cql.findMetaValue.
  rewrite findMeta_meta_miss; [reflexivity |].
  apply String.eqb_neq in Hne. rewrite Hne.
  change (has_key key [(key', v)]) with (if String.eqb key key' then true else false).
  rewrite Hk. reflexivity.
Qed.

Lemma toCql_meta_key : forall key v s,
  String.eqb "cql" key = false ->
  Cql.toCql (meta [(key, v)] s) = Cql.toCql s.
Proof.
  intros key v s Hk. rewrite toCql_meta.
  change (has_key "cql" [(key, v)]) with (if String.eqb "cql" key then true else false).
  rewrite Hk. destruct (inner_children s); reflexivity.
Qed.

(** X2.  The three key accessors do not interfere: assigning the partition
    key, the clustering key or the lookup keys leaves the other two getters
    and the export of the schema unchanged. *)
Theorem X2_key_setters_are_independent :
  forall (this : schema) (name : value) (names : list value),
    let p := meta [("cqlPartitionKey", name)] this in
    let c := meta [("cqlClusteringKey", name)] this in
    let l := meta [("cqlLookupKeys", VArr names)] this in
    Cql.partitionKey this [name] = Cql.Derived p
    /\ Cql.clusteringKey this [name] = Cql.Derived c
    /\ Cql.lookupKeys this [VArr names] = Ok (Cql.Derived l)
    /\ Cql.clusteringKey p [] = Cql.clusteringKey this []
    /\ Cql.lookupKeys p [] = Cql.lookupKeys this []
    /\ Cql.toCql p = Cql.toCql this
    /\ Cql.partitionKey c [] = Cql.partitionKey this []
    /\ Cql.lookupKeys c [] = Cql.lookupKeys this []
    /\ Cql.toCql c = Cql.toCql this
    /\ Cql.partitionKey l [] = Cql.partitionKey this []
    /\ Cql.clusteringKey l [] = Cql.clusteringKey this []
    /\ Cql.toCql l = Cql.toCql this.
Proof.
  intros this name names p c l. unfold p, c, l.
  unfold Cql.partitionKey, Cql.clusteringKey, Cql.lookupKeys. simpl.
  rewrite !findMetaValue_meta_other by (reflexivity || discriminate).
  rewrite !toCql_meta_key by reflexivity.
  repeat split.
Qed.

(** X3.  What a key getter returns after any assignment: the assigned
    value when it is truthy, and the empty sequence when it is falsy
    ([''], [0], [false], [null], an explicit [undefined]) even if a key
    name had been assigned before. *)
Theorem X3_key_getter_after_any_assignment :
  forall (this : schema) (name : value),
    partitionKey_then_get this name
    = Cql.Value (if truthy name then name else VArr [])
    /\ clusteringKey_then_get this name
       = Cql.Value (if truthy name then name else VArr [])
    /\ partitionKey_then_get (meta [("cqlPartitionKey", VStr "orion_id")] this) (VStr "")
       = Cql.Value (VArr [])
    /\ partitionKey_then_get (meta [("cqlPartitionKey", VStr "orion_id")] this) VUndefined
       = Cql.Value (VArr []).
Proof.
  intros this name.
  rewrite !partitionKey_roundtrip, clusteringKey_roundtrip.
  repeat split.
Qed.




(* ================================================================== *)
(** ** Further properties: defaults *)
(* ================================================================== *)

(** What validating an absent value gives on a schema that carries a
    default function. *)
Lemma validate_absent_with_default : forall w o (fn : default_fn) (s : schema),
  validate w o (default fn s) VUndefined
  = (d <- fn w (match c_convert (common_of s) with
                | Some b => {| convert := b; context := context o |}
                | None => o
                end) ;;
     Ok (pass d)).
Proof.
  intros w o fn [c k]. simpl. unfold finalize. simpl.
  destruct (fn w _) as [d | e]; reflexivity.
Qed.

(** X5.  A date default registered on any validator produces the current
    time for an absent value exactly when the configured trigger equals
    the operation, or the trigger is ['update'] and the operation is
    ['create'] or ['update']; otherwise the value stays undefined.  So
    ['create'] fires under ['create'] only and ['update'] under both. *)
Theorem X5_date_default_fires_by_operation :
  forall (w : world) (s : schema) (op when_ : string),
    String.eqb when_ "" = false ->
    validate_with w (operation_context op)
      (Cql.defaultify Cql.Fdate s (default_option when_)) VUndefined
    = Ok (pass (if date_fires when_ op then VStr (now_iso w) else VUndefined))
    /\ validate_with w (operation_context op)
         (Cql.defaultify Cql.Fdate s (default_option "create")) VUndefined
       = Ok (pass (if String.eqb op "create" then VStr (now_iso w) else VUndefined))
    /\ validate_with w (operation_context op)
         (Cql.defaultify Cql.Fdate s (default_option "update")) VUndefined
       = Ok (pass (if String.eqb op "create" || String.eqb op "update"
                   then VStr (now_iso w) else VUndefined)).
Proof.
  intros w s op when0 Hwhen.
  assert (G : forall when_, String.eqb when_ "" = false ->
       validate_with w (operation_context op)
         (Cql.defaultify Cql.Fdate s (default_option when_)) VUndefined
       = Ok (pass (if date_fires when_ op then VStr (now_iso w) else VUndefined))).
  { intros when_ Hw. unfold Cql.defaultify, default_option, validate_with. simpl.
    rewrite Hw. simpl. unfold Cql.defaults_date.
    rewrite validate_absent_with_default. simpl.
    unfold date_fires.
    destruct (c_convert (common_of s)); simpl; rewrite orb_false_r;
      destruct (String.eqb when_ op || String.eqb when_ "update"
                && (String.eqb op "create" || String.eqb op "update")); reflexivity. }
  split; [exact (G when0 Hwhen) |]. split.
  - rewrite G by reflexivity. unfold date_fires.
    rewrite (String.eqb_sym "create" op).
    replace (String.eqb "create" "update") with false by reflexivity.
    rewrite andb_false_l, orb_false_r. reflexivity.
  - rewrite G by reflexivity. unfold date_fires.
    rewrite (String.eqb_sym "update" op).
    replace (String.eqb "update" "update") with true by reflexivity.
    rewrite andb_true_l.
    destruct (String.eqb op "update"), (String.eqb op "create"); reflexivity.
Qed.

Lemma X5_witness :
  validate_with example_world (operation_context "delete")
    (Cql.defaultify Cql.Fdate Cql.text (default_option "delete")) VUndefined
  = Ok (pass (VStr "2015-09-18T00:59:41.840Z"))
  /\ validate_with example_world (operation_context "delete")
       (Cql.defaultify Cql.Fdate Cql.text (default_option "create")) VUndefined
     = Ok (pass VUndefined)
  /\ validate_with example_world (operation_context "delete")
       (Cql.defaultify Cql.Fdate Cql.text (default_option "update")) VUndefined
     = Ok (pass VUndefined).
Proof.
  apply (X5_date_default_fires_by_operation example_world Cql.text "delete" "delete").
  reflexivity.
Defined.

(** X6.  With the default option ['empty'], [uuid] and [timeuuid] give an
    absent value the nil identifier under operation ['create'] and leave
    it undefined under every other operation; the nil identifier has the
    shape of an identifier, and the annotation records ['empty']. *)
Theorem X6_empty_default_is_nil_uuid :
  forall (w : world) (op : string),
    validate_with w (operation_context op) (Cql.uuid (default_option "empty")) VUndefined
    = Ok (pass (if String.eqb op "create" then VStr nil_uuid else VUndefined))
    /\ validate_with w (operation_context op) (Cql.timeuuid (default_option "empty"))
         VUndefined
       = Ok (pass (if String.eqb op "create" then VStr nil_uuid else VUndefined))
    /\ uuid_pattern nil_uuid = true
    /\ Cql.member (Cql.toCql (Cql.uuid (default_option "empty"))) "default" = VStr "empty"
    /\ Cql.member (Cql.toCql (Cql.timeuuid (default_option "empty"))) "default"
       = VStr "empty".
Proof.
  intros w op. unfold validate_with. simpl.
  unfold finalize, Cql.context_operation. simpl.
  destruct (String.eqb op "create"); repeat split.
Qed.

Lemma defaultUuid_cases : forall (options : value) (version : string),
  Cql.defaultUuid options version = VUndefined
  \/ Cql.defaultUuid options version = VStr version
  \/ Cql.defaultUuid options version = VStr "empty".
Proof.
  intros options version. unfold Cql.defaultUuid.
  destruct (truthy (Cql.options_default options)); [| left; reflexivity].
  unfold includes. simpl.
  destruct (Cql.member options "default") as [| | b | n | s | l | o | f l];
    simpl; try (right; left; reflexivity).
  destruct (String.eqb s version) eqn:E1; simpl.
  - apply String.eqb_eq in E1. subst s. right. left. reflexivity.
  - destruct (String.eqb s "empty") eqn:E2; simpl.
    + apply String.eqb_eq in E2. subst s. right. right. reflexivity.
    + right. left. reflexivity.
Qed.

Lemma uuid_family_absent : forall w op (m : obj) (version : string) (d : value),
  (version = "v1" \/ version = "v4") ->
  (d = VUndefined \/ d = VStr version \/ d = VStr "empty") ->
  exists r,
    validate_with w (operation_context op)
      (Cql.defaultify Cql.Fuuid (guid (meta m string_)) (VObj [("default", d)]))
      VUndefined = Ok r
    /\ no_error r = true.
Proof.
  intros w op m version d Hv Hd. unfold validate_with.
  destruct Hd as [Hd | [Hd | Hd]]; subst d.
  - eexists. split; reflexivity.
  - destruct Hv; subst version; simpl;
      unfold finalize, Cql.context_operation; simpl;
      destruct (String.eqb op "create"); simpl; eexists; split; reflexivity.
  - simpl. unfold finalize, Cql.context_operation. simpl.
    destruct (String.eqb op "create"); simpl; eexists; split; reflexivity.
Qed.

(** X7.  Whatever the caller passes as options, [defaultUuid] gives
    [undefined], the builder's version or ['empty'], so the default of
    [uuid] and [timeuuid] never looks up a generator other than [v4] and
    [v1]: validating an absent value under a context that has an
    operation returns, without error, for every options value. *)
Theorem X7_uuid_default_never_throws :
  forall (w : world) (op : string) (options : value),
    (Cql.defaultUuid options "v4" = VUndefined
     \/ Cql.defaultUuid options "v4" = VStr "v4"
     \/ Cql.defaultUuid options "v4" = VStr "empty")
    /\ (Cql.defaultUuid options "v1" = VUndefined
        \/ Cql.defaultUuid options "v1" = VStr "v1"
        \/ Cql.defaultUuid options "v1" = VStr "empty")
    /\ (exists r,
          validate_with w (operation_context op) (Cql.uuid options) VUndefined = Ok r
          /\ no_error r = true)
    /\ (exists r,
          validate_with w (operation_context op) (Cql.timeuuid options) VUndefined = Ok r
          /\ no_error r = true).
Proof.
  intros w op options.
  split; [apply defaultUuid_cases |]. split; [apply defaultUuid_cases |]. split.
  - unfold Cql.uuid.
    apply (uuid_family_absent w op _ "v4"); [right; reflexivity | apply defaultUuid_cases].
  - unfold Cql.timeuuid.
    apply (uuid_family_absent w op _ "v1"); [left; reflexivity | apply defaultUuid_cases].
Qed.

(** X8.  A registered default reads [config.context.operation]: validating
    an absent value without a context ([undefined] or [null]) throws a
    TypeError, for [uuid], [timeuuid] and a date default alike, also when
    the field is absent from an object.  The default is consulted for an
    absent value only: with a string given, the validation returns. *)
Theorem X8_default_without_context_throws :
  forall (w : world) (field : string) (s : schema) (given : string),
    validate_with w VNull (Cql.uuid (default_option "v4")) VUndefined
    = Throw (TypeError "cannot read property of null")
    /\ validate_with w VUndefined (Cql.uuid (default_option "v4")) VUndefined
       = Throw (TypeError "cannot read property of undefined")
    /\ validate_with w VUndefined (Cql.timeuuid (default_option "empty")) VUndefined
       = Throw (TypeError "cannot read property of undefined")
    /\ validate_with w VUndefined
         (Cql.defaultify Cql.Fdate s (default_option "create")) VUndefined
       = Throw (TypeError "cannot read property of undefined")
    /\ validate_with w VUndefined
         (one_field field (Cql.uuid (default_option "v4"))) (VObj [])
       = Throw (TypeError "cannot read property of undefined")
    /\ validate_with w VUndefined (Cql.uuid (default_option "v4")) (VStr given)
       = Ok (if String.eqb given "" then fail "any.invalid" (VStr given)
             else if isGuid w given then pass (VStr given)
             else fail "string.test" (VStr given)).
Proof.
  intros w field s given. unfold validate_with.
  repeat split.
  - unfold Cql.defaultify. simpl. unfold Cql.defaults_date.
    rewrite validate_absent_with_default. simpl.
    destruct (c_convert (common_of s)); reflexivity.
  - simpl. destruct (String.eqb given ""); simpl; [reflexivity |].
    destruct (isGuid w given); reflexivity.
Qed.

(* ================================================================== *)
(** ** Further properties: scalar builders *)
(* ================================================================== *)



(** X10.  [text()], [ascii()] and [varchar()] accept every string, the
    empty one included, and no other defined value: booleans, numbers,
    [null], arrays and objects are refused, and the accepted string is
    returned unchanged. *)
Theorem X10_string_builders_accept_exactly_strings :
  forall (w : world) (o : options) (v : value),
    accepts w o Cql.text v = (is_string v || is_undefined v)
    /\ accepts w o Cql.ascii v = (is_string v || is_undefined v)
    /\ accepts w o Cql.varchar v = (is_string v || is_undefined v)
    /\ (forall s, validate w o Cql.text (VStr s) = Ok (pass (VStr s)))
    /\ (forall s, validate w o Cql.ascii (VStr s) = Ok (pass (VStr s)))
    /\ (forall s, validate w o Cql.varchar (VStr s) = Ok (pass (VStr s))).
Proof.
  intros w o v.
  assert (T : forall s, validate w o Cql.text (VStr s) = Ok (pass (VStr s))).
  { intros s. simpl. destruct (String.eqb s ""); reflexivity. }
  assert (A : forall s, validate w o Cql.ascii (VStr s) = Ok (pass (VStr s))).
  { intros s. simpl. destruct (String.eqb s ""); reflexivity. }
  assert (V : forall s, validate w o Cql.varchar (VStr s) = Ok (pass (VStr s))).
  { intros s. simpl. destruct (String.eqb s ""); reflexivity. }
  repeat split; try assumption; unfold accepts;
    destruct v as [| | b | n | s | l | d | f l];
    try reflexivity;
    try (destruct n as [z | neg |]; reflexivity);
    first [rewrite T | rewrite A | rewrite V]; reflexivity.
Qed.

(* ================================================================== *)
(** ** Further properties: collections *)
(* ================================================================== *)

(** X11.  A collection takes its sub-type from the element validator at
    construction.  Over an element with a canonical annotation, [list],
    [set] and [map] export the types ['list'], ['set'] and ['map'] with
    [listType], [setType] and the second component of [mapType] equal to
    the element's [type]; over an element without one (such as
    [joi.string()]) the three builders throw a TypeError. *)
Theorem X11_collection_subtype_from_element :
  forall (keyType : Cql.key_type) (t : schema),
    match Cql.findMeta t None with
    | Some m =>
        exported (Cql.list t) "type" = VStr "list"
        /\ exported (Cql.list t) "listType" = get "type" m
        /\ exported (Cql.set t) "type" = VStr "set"
        /\ exported (Cql.set t) "setType" = get "type" m
        /\ exported (Cql.map keyType t) "type" = VStr "map"
        /\ exported (Cql.map keyType t) "mapType" = VArr [VStr "text"; get "type" m]
        /\ exported (Cql.list t) "serialize" = Cql.convertArray (get "serialize" m)
        /\ exported (Cql.set t) "deserialize" = Cql.convertArray (get "deserialize" m)
        /\ exported (Cql.map keyType t) "serialize" = Cql.convertMap (get "serialize" m)
    | None =>
        Cql.list t = Throw (TypeError "cannot read property of undefined")
        /\ Cql.set t = Throw (TypeError "cannot read property of undefined")
        /\ Cql.map keyType t = Throw (TypeError "cannot read property of undefined")
    end
    /\ Cql.list string_ = Throw (TypeError "cannot read property of undefined").
Proof.
  intros keyType t. split; [| reflexivity].
  unfold Cql.list, Cql.set, Cql.map.
  destruct (Cql.findMeta t None) as [m |]; repeat split.
Qed.

(** Whether every unclaimed key was matched by a pattern and validated. *)
Lemma check_patterns_one : forall rec re t key target,
  check_patterns rec [(re, t)] key target
  = if test re key then
      r <- rec t (get key target) ;;
      if no_error r
      then Ok (Some (true, if is_undefined (value_of r) then target
                           else JS.set key (value_of r) target))
      else Ok None
    else Ok (Some (false, target)).
Proof. reflexivity. Qed.

Lemma check_unprocessed_cons : forall rec ps key rest target,
  check_unprocessed rec ps (key :: rest) target
  = (m <- check_patterns rec ps key target ;;
     match m with
     | None => Ok None
     | Some (matched, target') =>
         n <- check_unprocessed rec ps rest target' ;;
         Ok (option_map (fun p => (if matched then fst p else key :: fst p, snd p)) n)
     end).
Proof. reflexivity. Qed.

Lemma filter_all : forall (A : Type) (l : list A), filter (fun _ => true) l = l.
Proof.
  induction l as [| a l IH]; simpl; [reflexivity | rewrite IH; reflexivity].
Qed.

Section OnePattern.

Variables (w : world) (o : options) (re : regex) (t : schema) (d : obj).

Lemma check_unprocessed_one : forall ks target,
  NoDup ks ->
  (forall k, In k ks -> get k target = get k d) ->
  match check_unprocessed (validate w o) [(re, t)] ks target with
  | Ok (Some (unknown_keys, _)) => is_nil unknown_keys
  | _ => false
  end = forallb (fun k => test re k && accepts w o t (get k d)) ks.
Proof.
  induction ks as [| k rest IH]; intros target Hnd Hget; [reflexivity |].
  inversion Hnd as [| x l Hk Hrest]; subst.
  rewrite check_unprocessed_cons, check_patterns_one.
  cbn [forallb]. unfold accepts at 1.
  rewrite (Hget k (or_introl eq_refl)).
  destruct (test re k) eqn:Ere; simpl.
  - destruct (validate w o t (get k d)) as [r | e]; simpl; [| reflexivity].
    destruct (no_error r) eqn:Eok; simpl; [| reflexivity].
    match goal with
    | |- context [check_unprocessed _ _ rest ?tg] =>
        assert (Hrec := IH tg Hrest); set (target1 := tg) in *
    end.
    assert (Hget1 : forall k', In k' rest -> get k' target1 = get k' d).
    { intros k' Hin. unfold target1.
      destruct (is_undefined (value_of r)); [apply Hget; right; exact Hin |].
      rewrite get_set.
      destruct (String.eqb k' k) eqn:E.
      - apply String.eqb_eq in E. subst k'. contradiction.
      - apply Hget. right. exact Hin. }
    specialize (Hrec Hget1). rewrite <- Hrec.
    destruct (check_unprocessed (validate w o) [(re, t)] rest target1)
      as [[[unk tg] |] | e]; reflexivity.
  - destruct (check_unprocessed (validate w o) [(re, t)] rest target)
      as [[[unk tg] |] | e]; reflexivity.
Qed.

(** An object schema with one pattern and nothing else accepts an object
    exactly when every key matches the pattern and holds a value the
    pattern's validator accepts. *)
Lemma pattern_object_accepts : forall (ms : list obj),
  NoDup (keys d) ->
  accepts w o
    (Schema {| c_meta := ms; c_valids := []; c_invalids := []; c_convert := None;
               c_default := None; c_post := fun r => r |}
            (KObject None [(re, t)] [] None))
    (VObj d)
  = forallb (fun k => test re k && accepts w o t (get k d)) (keys d).
Proof.
  intros ms Hnd. unfold accepts at 1.
  rewrite <- (check_unprocessed_one (keys d) d Hnd (fun k _ => eq_refl)).
  cbn -[check_unprocessed]. rewrite filter_all.
  destruct (keys d) as [| k0 ks] eqn:Ek; [reflexivity |].
  cbn -[check_unprocessed].
  destruct (check_unprocessed (validate w o) [(re, t)] (k0 :: ks) d)
    as [[[unk tg] |] | e]; cbn; try reflexivity.
  destruct unk; reflexivity.
Qed.

End OnePattern.

(** X12.  [map(keyType, valueType)] accepts an object exactly when every
    field name contains a word character or a dash and every field value
    is accepted by [valueType]; the key type is not consulted.  So with
    [text()] values [{name: 'true'}] passes and [{name: true}] fails. *)
Theorem X12_map_accepts_by_field_values :
  forall (w : world) (o : options) (keyType : Cql.key_type) (valueType : schema)
         (m : obj) (d : obj),
    Cql.findMeta valueType None = Some m ->
    NoDup (keys d) ->
    exists mp,
      Cql.map keyType valueType = Ok mp
      /\ accepts w o mp (VObj d)
         = forallb (fun k => test Re_map_key k && accepts w o valueType (get k d))
                   (keys d).
Proof.
  intros w o keyType valueType m d Hm Hnd.
  unfold Cql.map. rewrite Hm. simpl. eexists. split; [reflexivity |].
  apply (pattern_object_accepts w o Re_map_key valueType d _ Hnd).
Qed.

Lemma X12_witness :
  exists mp,
    Cql.map (Cql.KeyName "") Cql.text = Ok mp
    /\ accepts example_world default_options mp (VObj [("name", VBool true)])
       = false.
Proof.
  apply (X12_map_accepts_by_field_values example_world default_options
           (Cql.KeyName "") Cql.text
           [("cql", VBool true); ("type", VStr "text")]
           [("name", VBool true)]).
  - reflexivity.
  - repeat constructor; simpl; intuition discriminate.
Defined.






(** X14.  In a partial-update descriptor of [list(t)], [index] alone is
    accepted exactly when it holds an object all of whose keys are digit
    strings and all of whose values are accepted by [t]. *)
Theorem X14_list_index_keys_are_digit_strings :
  forall (w : world) (o : options) (t : schema) (m : obj) (d : obj),
    Cql.findMeta t None = Some m ->
    NoDup (keys d) ->
    exists lst,
      Cql.list t = Ok lst
      /\ accepts w o lst (VObj [("index", VObj d)])
         = forallb (fun k => test Re_index k && accepts w o t (get k d)) (keys d).
Proof.
  intros w o t m d Hm Hnd. unfold Cql.list. rewrite Hm.
  cbn [bind Cql.meta_prop].
  eexists. split; [reflexivity |].
  rewrite <- (pattern_object_accepts w o Re_index t d [] Hnd).
  unfold accepts at 1.
  change (try_ _ _)
    with (Schema {| c_meta := [[("cql", VBool true); ("type", VStr "list");
                                ("listType", get "type" m);
                                ("serialize", Cql.convertArray (get "serialize" m));
                                ("deserialize", Cql.convertArray (get "deserialize" m))]];
                    c_valids := []; c_invalids := []; c_convert := None;
                    c_default := None; c_post := fun r => r |}
                 (KAlternatives [Schema blank (KArray false false [t]);
                                 descriptor (list_children t)])).
  rewrite alternatives_array_then.
  unfold descriptor, list_children, index_of, accepts.
  change (pattern Re_index t object_)
    with (Schema {| c_meta := []; c_valids := []; c_invalids := []; c_convert := None;
                    c_default := None; c_post := fun r => r |}
                 (KObject None [(Re_index, t)] [] None)).
  remember (Schema {| c_meta := []; c_valids := []; c_invalids := []; c_convert := None;
                      c_default := None; c_post := fun r => r |}
                   (KObject None [(Re_index, t)] [] None)) as ix eqn:Eix.
  cbn.
  destruct (validate w o ix (VObj d)) as [r |] eqn:Er; cbn; [| reflexivity].
  destruct (no_error r) eqn:Eok; cbn; [| reflexivity].
  subst ix.
  assert (Hdef := object_value_defined w o None [(Re_index, t)] [] None (VObj d) r Er Eok).
  cbn in Hdef. rewrite Hdef. cbn. rewrite Hdef. reflexivity.
Qed.

Lemma X14_witness :
  exists lst,
    Cql.list Cql.text = Ok lst
    /\ accepts example_world default_options lst
         (VObj [("index", VObj [("0", VStr "x"); ("a", VStr "y")])])
       = false.
Proof.
  apply (X14_list_index_keys_are_digit_strings example_world default_options Cql.text
           [("cql", VBool true); ("type", VStr "text")]
           [("0", VStr "x"); ("a", VStr "y")]).
  - reflexivity.
  - repeat constructor; simpl; intuition discriminate.
Defined.

(* ================================================================== *)
(** ** Further properties: JSON fields and conversion handlers *)
(* ================================================================== *)

Lemma json_any_result : forall w ctx v,
  validate_with w ctx (Cql.json None) v
  = Ok (pass (if truthy v then JSON_stringify v else v)).
Proof.
  intros w ctx v. destruct v as [| | b | n | s | l | o | f l]; try reflexivity.
  - destruct b; reflexivity.
  - destruct n as [z | b |]; try reflexivity.
    unfold validate_with. simpl. destruct (Z.eqb z 0); reflexivity.
  - unfold validate_with. simpl. destruct (String.eqb s ""); reflexivity.
Qed.

(** X15.  Validating any value against [json()] returns without error,
    and the validated value is a string or a falsy value: an object or an
    array never comes back as it went in. *)
Theorem X15_json_result_is_string_or_falsy :
  forall (w : world) (ctx : value) (v : value),
    exists r,
      validate_with w ctx (Cql.json None) v = Ok r
      /\ no_error r = true
      /\ (is_string (value_of r) || negb (truthy (value_of r))) = true
      /\ (isArray (value_of r) = false)
      /\ (match value_of r with VObj _ => false | _ => true end = true).
Proof.
  intros w ctx v. rewrite json_any_result. eexists. split; [reflexivity |].
  split; [reflexivity |]. simpl.
  destruct (truthy v) eqn:T.
  - unfold JSON_stringify. destruct (stringify_text v); repeat split.
  - rewrite T. destruct v; try discriminate T; repeat split.
Qed.

(** A validation that returns, on a schema without default, returns what
    the schema's own [_validate] makes of some result. *)
Lemma validate_post : forall w o c k v r,
  c_default c = None ->
  validate w o (Schema c k) v = Ok r ->
  exists r0, r = c_post c r0.
Proof.
  intros w o c k v r Hd H. simpl in H.
  match type of H with
  | bind ?m _ = _ => destruct m as [r1 | e]; [| discriminate H]
  end.
  unfold bind, finalize in H. rewrite Hd in H.
  destruct (value_of r1); inversion H; eexists; reflexivity.
Qed.

(** X16.  With a shape, every validation of [json(shape)] that returns
    gives a string or a falsy value, error or not: the wrapper encodes
    whatever truthy value the validation of the shape hands back.  So a
    defined value that passes comes back as a string, and a number or
    boolean, which is refused as no object, comes back as its JSON text
    next to the error; [null] and [0] are refused and come back as they
    are. *)
Theorem X16_json_shape_encodes_what_passes :
  forall (w : world) (ctx : value) (shape : list (string * schema)) (v : value)
         (r : result) (z : Z),
    validate_with w ctx (Cql.json (Some shape)) v = Ok r ->
    Z.eqb z 0 = false ->
    Z.leb (Z.abs z) (2 ^ 53) = true ->
    (is_string (value_of r) || negb (truthy (value_of r))) = true
    /\ implb (no_error r && negb (is_undefined v)) (is_string (value_of r)) = true
    /\ validate_with w ctx (Cql.json (Some shape)) (VNum (NFin z))
       = Ok (fail "object.base" (VStr (string_of_Z z)))
    /\ validate_with w ctx (Cql.json (Some shape)) (VBool true)
       = Ok (fail "object.base" (VStr "true"))
    /\ validate_with w ctx (Cql.json (Some shape)) (VNum (NFin 0))
       = Ok (fail "object.base" (VNum (NFin 0)))
    /\ validate_with w ctx (Cql.json (Some shape)) VNull = Ok (fail "object.base" VNull).
Proof.
  intros w ctx shape v r z H Hz Hsafe.
  assert (S : (is_string (value_of r) || negb (truthy (value_of r))) = true).
  { unfold validate_with in H.
    assert (P : exists r0,
              r = if truthy (value_of r0)
                  then {| error := error r0; value_of := JSON_stringify (value_of r0) |}
                  else r0).
    { destruct shape as [| c0 cs];
        apply validate_post in H; try reflexivity; exact H. }
    destruct P as [r0 E]. subst r.
    destruct (truthy (value_of r0)) eqn:T.
    - cbn [value_of]. unfold JSON_stringify.
      destruct (stringify_text (value_of r0)); reflexivity.
    - rewrite T. apply orb_true_r. }
  split; [exact S |]. split.
  - destruct (no_error r) eqn:Hok; [| reflexivity].
    destruct (is_undefined v) eqn:Hv; [reflexivity |].
    cbn [andb negb implb].
    unfold validate_with in H.
    destruct shape as [| c0 cs]; destruct v; try discriminate Hv; simpl in H;
      split_match H; inversion H; subst;
      cbv [no_error fail pass error value_of] in *;
      first [discriminate | reflexivity].
  - repeat split.
    + destruct shape; unfold validate_with; simpl; rewrite Hz; reflexivity.
    + destruct shape; reflexivity.
    + destruct shape; reflexivity.
    + destruct shape; reflexivity.
Qed.

Lemma X16_witness :
  (is_string (VStr (String "{" (String dquote ("id" ++ String dquote (":1}")))))
   || negb (truthy (VStr (String "{" (String dquote ("id" ++ String dquote (":1}")))))))
  = true
  /\ implb (true && negb (is_undefined (VObj [("id", VNum (NFin 1))])))
           (is_string (VStr (String "{" (String dquote ("id" ++ String dquote (":1}"))))))
     = true
  /\ validate_with example_world VUndefined (Cql.json (Some [("id", Cql.int)]))
       (VNum (NFin 5))
     = Ok (fail "object.base" (VStr "5"))
  /\ validate_with example_world VUndefined (Cql.json (Some [("id", Cql.int)]))
       (VBool true)
     = Ok (fail "object.base" (VStr "true"))
  /\ validate_with example_world VUndefined (Cql.json (Some [("id", Cql.int)]))
       (VNum (NFin 0))
     = Ok (fail "object.base" (VNum (NFin 0)))
  /\ validate_with example_world VUndefined (Cql.json (Some [("id", Cql.int)])) VNull
     = Ok (fail "object.base" VNull).
Proof.
  apply (X16_json_shape_encodes_what_passes example_world VUndefined [("id", Cql.int)]
           (VObj [("id", VNum (NFin 1))])
           (pass (VStr (String "{" (String dquote ("id" ++ String dquote (":1}"))))))
           5%Z).
  - reflexivity.
  - reflexivity.
  - reflexivity.
Defined.








(** [convertArray(handler)] on an array, when the handler returns for
    every item. *)
Lemma call_convertArray_array : forall w handler (l : list value) (f : value -> value),
  truthy handler = true ->
  (forall x, In x l -> CqlMore.call w handler x = Some (CqlMore.Returns (f x))) ->
  CqlMore.call w (Cql.convertArray handler) (VArr l)
  = Some (CqlMore.Returns (VArr (List.map f l))).
Proof.
  intros w handler l f Ht Hcall.
  unfold Cql.convertArray. cbn [CqlMore.call]. rewrite Ht. cbn [negb or_else truthy].
  induction l as [| x rest IH]; [reflexivity |].
  simpl. rewrite (Hcall x (or_introl eq_refl)).
  simpl in IH. rewrite IH; [reflexivity |].
  intros y Hy. apply Hcall. right. exact Hy.
Qed.

Lemma collection_transforms : forall (keyType : Cql.key_type) (t : schema) (m : obj),
  Cql.findMeta t None = Some m ->
  exported (Cql.map keyType t) "serialize" = Cql.convertMap (get "serialize" m)
  /\ exported (Cql.map keyType t) "deserialize" = Cql.convertMap (get "deserialize" m)
  /\ exported (Cql.list t) "serialize" = Cql.convertArray (get "serialize" m)
  /\ exported (Cql.list t) "deserialize" = Cql.convertArray (get "deserialize" m)
  /\ exported (Cql.set t) "serialize" = Cql.convertArray (get "serialize" m)
  /\ exported (Cql.set t) "deserialize" = Cql.convertArray (get "deserialize" m).
Proof.
  intros keyType t m Hm. unfold Cql.map, Cql.list, Cql.set. rewrite Hm.
  repeat split.
Qed.

(** X17.  Given [null], [undefined] or any other falsy value, the
    [serialize] and [deserialize] of a [map] return the empty object and
    those of a [list] or [set] the empty array, with or without an element
    transform. *)
Theorem X17_transforms_of_falsy_input_are_empty :
  forall (w : world) (keyType : Cql.key_type) (t : schema) (m : obj) (data : value),
    Cql.findMeta t None = Some m ->
    truthy data = false ->
    CqlMore.call w (exported (Cql.map keyType t) "serialize") data
    = Some (CqlMore.Returns (VObj []))
    /\ CqlMore.call w (exported (Cql.map keyType t) "deserialize") data
       = Some (CqlMore.Returns (VObj []))
    /\ CqlMore.call w (exported (Cql.list t) "serialize") data
       = Some (CqlMore.Returns (VArr []))
    /\ CqlMore.call w (exported (Cql.list t) "deserialize") data
       = Some (CqlMore.Returns (VArr []))
    /\ CqlMore.call w (exported (Cql.set t) "serialize") data
       = Some (CqlMore.Returns (VArr []))
    /\ CqlMore.call w (exported (Cql.set t) "deserialize") data
       = Some (CqlMore.Returns (VArr [])).
Proof.
  intros w keyType t m data Hm Hd.
  destruct (collection_transforms keyType t m Hm) as [E1 [E2 [E3 [E4 [E5 E6]]]]].
  rewrite E1, E2, E3, E4, E5, E6.
  unfold Cql.convertMap, Cql.convertArray. cbn [CqlMore.call].
  unfold or_else. rewrite Hd.
  destruct (truthy (get "serialize" m)), (truthy (get "deserialize" m));
    repeat split.
Qed.

Lemma X17_witness :
  CqlMore.call example_world (exported (Cql.map (Cql.KeyName "") Cql.text) "serialize") VNull
  = Some (CqlMore.Returns (VObj []))
  /\ CqlMore.call example_world (exported (Cql.map (Cql.KeyName "") Cql.text) "deserialize")
       VNull
     = Some (CqlMore.Returns (VObj []))
  /\ CqlMore.call example_world (exported (Cql.list Cql.text) "serialize") VNull
     = Some (CqlMore.Returns (VArr []))
  /\ CqlMore.call example_world (exported (Cql.list Cql.text) "deserialize") VNull
     = Some (CqlMore.Returns (VArr []))
  /\ CqlMore.call example_world (exported (Cql.set Cql.text) "serialize") VNull
     = Some (CqlMore.Returns (VArr []))
  /\ CqlMore.call example_world (exported (Cql.set Cql.text) "deserialize") VNull
     = Some (CqlMore.Returns (VArr [])).
Proof.
  apply (X17_transforms_of_falsy_input_are_empty example_world (Cql.KeyName "")
           Cql.text [("cql", VBool true); ("type", VStr "text")] VNull);
    reflexivity.
Defined.

(** X18.  The transforms of a [list] are for sequences only.  Over
    [json()] elements [serialize] encodes a sequence item by item, and on
    a partial-update descriptor such as [{append: [...]}] it throws a
    TypeError, the object having no [map]; over an element without
    transform, such as [text()], every truthy value, descriptor included,
    is returned as it is. *)
Theorem X18_list_transforms_on_sequences_and_descriptors :
  forall (w : world) (l : list value) (d : obj),
    is_undefined (get "map" d) = true ->
    CqlMore.call w (exported (Cql.list (Cql.json None)) "serialize") (VArr l)
    = Some (CqlMore.Returns (VArr (List.map JSON_stringify l)))
    /\ CqlMore.call w (exported (Cql.list (Cql.json None)) "serialize") (VObj d)
       = Some CqlMore.ThrowsTypeError
    /\ CqlMore.call w (exported (Cql.set (Cql.json None)) "deserialize") (VObj d)
       = Some CqlMore.ThrowsTypeError
    /\ CqlMore.call w (exported (Cql.list Cql.text) "serialize") (VObj d)
       = Some (CqlMore.Returns (VObj d))
    /\ CqlMore.call w (exported (Cql.list Cql.text) "serialize") (VArr l)
       = Some (CqlMore.Returns (VArr l)).
Proof.
  intros w l d Hd. split.
  - change (exported (Cql.list (Cql.json None)) "serialize")
      with (Cql.convertArray (VFun F_JSON_stringify [])).
    apply call_convertArray_array; [reflexivity |].
    intros x _. reflexivity.
  - change (exported (Cql.list (Cql.json None)) "serialize")
      with (Cql.convertArray (VFun F_JSON_stringify [])).
    change (exported (Cql.set (Cql.json None)) "deserialize")
      with (Cql.convertArray (VFun F_JSON_parse [])).
    change (exported (Cql.list Cql.text) "serialize")
      with (Cql.convertArray VUndefined).
    unfold Cql.convertArray. cbn [CqlMore.call truthy negb or_else].
    rewrite Hd. repeat split.
Qed.

Lemma X18_witness :
  CqlMore.call example_world (exported (Cql.list (Cql.json None)) "serialize")
    (VArr [VNum (NFin 1); VNull])
  = Some (CqlMore.Returns (VArr [VStr "1"; VStr "null"]))
  /\ CqlMore.call example_world (exported (Cql.list (Cql.json None)) "serialize")
       (VObj [("append", VArr [VNum (NFin 1)])])
     = Some CqlMore.ThrowsTypeError
  /\ CqlMore.call example_world (exported (Cql.set (Cql.json None)) "deserialize")
       (VObj [("append", VArr [VNum (NFin 1)])])
     = Some CqlMore.ThrowsTypeError
  /\ CqlMore.call example_world (exported (Cql.list Cql.text) "serialize")
       (VObj [("append", VArr [VNum (NFin 1)])])
     = Some (CqlMore.Returns (VObj [("append", VArr [VNum (NFin 1)])]))
  /\ CqlMore.call example_world (exported (Cql.list Cql.text) "serialize")
       (VArr [VNum (NFin 1); VNull])
     = Some (CqlMore.Returns (VArr [VNum (NFin 1); VNull])).
Proof.
  apply (X18_list_transforms_on_sequences_and_descriptors example_world
           [VNum (NFin 1); VNull] [("append", VArr [VNum (NFin 1)])]).
  reflexivity.
Defined.



(* ================================================================== *)
(** ** Further properties: the numeral pattern of 64-bit integers *)
(* ================================================================== *)

Lemma digits_value_bound : forall (s : string) (acc : Z),
  all_digits s = true -> (0 <= acc)%Z ->
  (0 <= digits_value acc s
   /\ digits_value acc s < (acc + 1) * 10 ^ Z.of_nat (String.length s))%Z.
Proof.
  induction s as [| c rest IH]; intros acc Hd Hacc.
  - simpl. lia.
  - simpl in Hd. apply andb_true_iff in Hd. destruct Hd as [Hc Hrest].
    cbn [digits_value]. rewrite Hc.
    unfold is_digit in Hc. apply andb_true_iff in Hc. destruct Hc as [H1 H2].
    apply Nat.leb_le in H1, H2.
    set (dgt := Z.of_nat (nat_of_ascii c - 48)).
    assert (Hdgt : (0 <= dgt <= 9)%Z) by (unfold dgt; lia).
    destruct (IH (10 * acc + dgt)%Z Hrest ltac:(lia)) as [L U].
    split; [exact L |].
    cbn [String.length]. rewrite Nat2Z.inj_succ, Z.pow_succ_r by lia.
    assert (P : (0 < 10 ^ Z.of_nat (String.length rest))%Z)
      by (apply Z.pow_pos_nonneg; lia).
    nia.
Qed.

Lemma lines_of_numeral : forall s : string,
  (forall c, In c (list_ascii_of_string s) -> is_digit c || is_minus c = true) ->
  lines s = [s].
Proof.
  induction s as [| c rest IH]; intros Hs; [reflexivity |].
  assert (Hc : is_digit c || is_minus c = true) by (apply Hs; left; reflexivity).
  assert (Hrest : lines rest = [rest]).
  { apply IH. intros c' Hc'. apply Hs. right. exact Hc'. }
  assert (N : Nat.eqb (nat_of_ascii c) 10 = false
              /\ Nat.eqb (nat_of_ascii c) 13 = false
              /\ Nat.eqb (nat_of_ascii c) 226 = false).
  { unfold is_digit, is_minus in Hc.
    apply orb_true_iff in Hc. destruct Hc as [Hc | Hc].
    - apply andb_true_iff in Hc. destruct Hc as [H1 H2].
      apply Nat.leb_le in H1, H2.
      repeat split; apply Nat.eqb_neq; lia.
    - apply Nat.eqb_eq in Hc. rewrite Hc. repeat split. }
  destruct N as [N1 [N2 N3]].
  cbn [lines]. rewrite N1, N2, N3. cbn [orb andb].
  rewrite Hrest.
  destruct rest as [| c1 [| c2 rest']]; reflexivity.
Qed.

Lemma all_digits_chars : forall s c,
  all_digits s = true -> In c (list_ascii_of_string s) -> is_digit c = true.
Proof.
  induction s as [| c0 rest IH]; intros c Hd Hin; [destruct Hin |].
  simpl in Hd. apply andb_true_iff in Hd. destruct Hd as [H0 Hrest].
  destruct Hin as [E | Hin]; [subst c0; exact H0 | apply IH; assumption].
Qed.

(** Read with the [m] flag, the pattern matches a string that is one
    numeral line. *)
Lemma int64_line_matches : forall l, int64_line l = true -> test Re_int64_m l = true.
Proof.
  intros l H. unfold test. rewrite lines_of_numeral.
  - simpl. rewrite H. reflexivity.
  - intros c Hc. unfold int64_line in H.
    destruct l as [| c0 rest]; [destruct Hc |].
    destruct (is_minus c0) eqn:Em.
    + apply andb_true_iff in H. destruct H as [H _].
      apply andb_true_iff in H. destruct H as [H _].
      destruct Hc as [E | Hc].
      * subst c0. rewrite Em. apply orb_true_r.
      * rewrite (all_digits_chars rest c H Hc). reflexivity.
    + apply andb_true_iff in H. destruct H as [H _].
      apply andb_true_iff in H. destruct H as [H _].
      rewrite (all_digits_chars (String c0 rest) c H Hc). reflexivity.
Qed.

(** X20.  Every string made of an optional ['-'] and 1 to 19 digits is
    accepted by [bigint()] and [counter()], and its magnitude is at most
    10^19 - 1: that, and not 2^63 - 1, is the bound the numeral pattern
    sets, and ['9999999999999999999'] attains it. *)
Theorem X20_numeral_pattern_bounds_by_digit_count :
  forall (w : world) (o : options) (l : string),
    int64_line l = true ->
    accepts w o Cql.bigint (VStr l) = true
    /\ accepts w o Cql.counter (VStr l) = true
    /\ (magnitude l <=? 10 ^ 19 - 1)%Z = true
    /\ magnitude "9999999999999999999" = (10 ^ 19 - 1)%Z.
Proof.
  intros w o l H.
  split; [unfold Cql.bigint; rewrite int64_accepts_string, H; reflexivity |].
  split; [unfold Cql.counter; rewrite int64_accepts_string, H; reflexivity |].
  split; [| reflexivity].
  apply Z.leb_le. unfold magnitude.
  unfold int64_line in H.
  assert (B : forall s, all_digits s = true -> Nat.leb (String.length s) 19 = true ->
                        (digits_value 0 s <= 10 ^ 19 - 1)%Z).
  { intros s Hd Hlen. apply Nat.leb_le in Hlen.
    destruct (digits_value_bound s 0 Hd ltac:(lia)) as [_ U].
    assert (M : (10 ^ Z.of_nat (String.length s) <= 10 ^ 19)%Z)
      by (apply Z.pow_le_mono_r; lia).
    lia. }
  destruct l as [| c rest].
  - cbn in H. discriminate H.
  - destruct (is_minus c) eqn:Em.
    + apply andb_true_iff in H. destruct H as [H Hlen].
      apply andb_true_iff in H. destruct H as [Hd _].
      cbn [digits_value].
      assert (Hnd : is_digit c = false).
      { unfold is_minus in Em. apply Nat.eqb_eq in Em. unfold is_digit. rewrite Em.
        reflexivity. }
      rewrite Hnd. apply B; assumption.
    + apply andb_true_iff in H. destruct H as [H Hlen].
      apply andb_true_iff in H. destruct H as [Hd _].
      apply B; assumption.
Qed.

Lemma X20_witness :
  accepts example_world default_options Cql.bigint (VStr "-9999999999999999999") = true
  /\ accepts example_world default_options Cql.counter (VStr "-9999999999999999999") = true
  /\ (magnitude "-9999999999999999999" <=? 10 ^ 19 - 1)%Z = true
  /\ magnitude "9999999999999999999" = (10 ^ 19 - 1)%Z.
Proof.
  apply (X20_numeral_pattern_bounds_by_digit_count example_world default_options
           "-9999999999999999999").
  reflexivity.
Defined.

Lemma push_char_app : forall c (pre rest : list string),
  pre <> [] -> push_char c (pre ++ rest)%list = (push_char c pre ++ rest)%list.
Proof.
  intros c [| p pre] rest H; [contradiction H; reflexivity | reflexivity].
Qed.

Lemma push_char_not_nil : forall c ls, push_char c ls <> [].
Proof. intros c [| l ls]; discriminate. Qed.

(** The lines of a string that continues after a line feed end with the
    lines of the continuation. *)
Lemma lines_after_line_feed : forall (n : nat) (a b : string),
  String.length a <= n ->
  exists pre, lines (a ++ LF ++ b) = (pre ++ lines b)%list /\ pre <> [].
Proof.
  induction n as [| n IH]; intros a b Hlen.
  - destruct a; [| simpl in Hlen; lia].
    exists [""]. split; [reflexivity | discriminate].
  - destruct a as [| c rest].
    + exists [""]. split; [reflexivity | discriminate].
    + simpl in Hlen.
      destruct (IH rest b ltac:(lia)) as [pre1 [E1 N1]].
      change ((String c rest ++ LF ++ b)%string) with (String c (rest ++ LF ++ b)).
      cbn [lines].
      destruct (Nat.eqb (nat_of_ascii c) 10 || Nat.eqb (nat_of_ascii c) 13).
      * exists ("" :: pre1). rewrite E1. split; [reflexivity | discriminate].
      * assert (P : exists pre, push_char c (lines (rest ++ LF ++ b))
                                = (pre ++ lines b)%list /\ pre <> []).
        { exists (push_char c pre1). rewrite E1, push_char_app by exact N1.
          split; [reflexivity | apply push_char_not_nil]. }
        destruct rest as [| c1 [| c2 rest2]].
        -- change (("" ++ LF ++ b)%string) with (String (ascii_of_nat 10) b) in *.
           destruct b as [| c2 b']; [exact P |].
           replace (Nat.eqb (nat_of_ascii (ascii_of_nat 10)) 128) with false
             by reflexivity.
           rewrite andb_false_r. cbn [andb]. exact P.
        -- change ((String c1 "" ++ LF ++ b)%string)
             with (String c1 (String (ascii_of_nat 10) b)) in *.
           replace (Nat.eqb (nat_of_ascii (ascii_of_nat 10)) 168) with false
             by reflexivity.
           replace (Nat.eqb (nat_of_ascii (ascii_of_nat 10)) 169) with false
             by reflexivity.
           cbn [orb]. rewrite andb_false_r. exact P.
        -- change ((String c1 (String c2 rest2) ++ LF ++ b)%string)
             with (String c1 (String c2 (rest2 ++ LF ++ b))) in *.
           cbv beta iota.
           destruct (Nat.eqb (nat_of_ascii c) 226 && Nat.eqb (nat_of_ascii c1) 128
                     && (Nat.eqb (nat_of_ascii c2) 168 || Nat.eqb (nat_of_ascii c2) 169)).
           ++ simpl in Hlen.
              destruct (IH rest2 b ltac:(lia)) as [pre2 [E2 N2]].
              exists ("" :: pre2). rewrite E2. split; [reflexivity | discriminate].
           ++ exact P.
Qed.

(** A string with a line feed in it is no numeral. *)
Lemma all_digits_line_feed : forall a b, all_digits (a ++ LF ++ b) = false.
Proof.
  induction a as [| c rest IH]; intros b; [reflexivity |].
  change ((String c rest ++ LF ++ b)%string) with (String c (rest ++ LF ++ b)).
  cbn [all_digits]. rewrite IH. apply andb_false_r.
Qed.

Lemma int64_line_line_feed : forall a b, int64_line (a ++ LF ++ b) = false.
Proof.
  intros a b. unfold int64_line.
  destruct a as [| c rest].
  - reflexivity.
  - change ((String c rest ++ LF ++ b)%string) with (String c (rest ++ LF ++ b)).
    cbv beta iota zeta.
    destruct (is_minus c).
    + rewrite all_digits_line_feed. reflexivity.
    + change (String c (rest ++ LF ++ b)) with ((String c rest ++ LF ++ b)%string).
      rewrite all_digits_line_feed. reflexivity.
Qed.

(** X21.  The [m] flag of the numeral pattern is without effect.  Read
    with the flag, as the literal is written, the pattern matches a string
    whose last line is an optional ['-'] and 1 to 19 digits, whatever text
    precedes the line feed; the engine holds the expression it rebuilt
    without the flag against the string, and that one does not match.  So
    [bigint()] and [counter()] accept such a string only when the number
    alternative reads the whole of it as an integer. *)
Theorem X21_multiline_flag_is_dropped :
  forall (w : world) (o : options) (before l : string),
    int64_line l = true ->
    test Re_int64_m (before ++ LF ++ l) = true
    /\ test (recompile Re_int64_m) (before ++ LF ++ l) = false
    /\ accepts w o Cql.bigint (VStr (before ++ LF ++ l))
       = reads_integer w o (before ++ LF ++ l)
    /\ accepts w o Cql.counter (VStr (before ++ LF ++ l))
       = reads_integer w o (before ++ LF ++ l).
Proof.
  intros w o before l H.
  split.
  { destruct (lines_after_line_feed (String.length before) before l (le_n _))
      as [pre [E _]].
    assert (L : test Re_int64_m l = true) by (apply int64_line_matches; exact H).
    unfold test in *. rewrite E, existsb_app, L. apply orb_true_r. }
  split; [apply int64_line_line_feed |].
  split; [unfold Cql.bigint | unfold Cql.counter];
    rewrite int64_accepts_string, int64_line_line_feed; reflexivity.
Qed.

Lemma X21_witness :
  test Re_int64_m ("drop table" ++ LF ++ "1") = true
  /\ test (recompile Re_int64_m) ("drop table" ++ LF ++ "1") = false
  /\ accepts example_world default_options Cql.bigint (VStr ("drop table" ++ LF ++ "1"))
     = false
  /\ accepts example_world default_options Cql.counter (VStr ("drop table" ++ LF ++ "1"))
     = false.
Proof.
  apply (X21_multiline_flag_is_dropped example_world default_options "drop table" "1").
  reflexivity.
Defined.
